(** * Caller layer of the course recommendation bot ([bot.py])

    A shallow embedding of the chat-bot layer that sits in front of the
    recommendation engine: the preference post-filter, the presentation
    helpers and the message, command, button and error handlers, followed
    by the properties the specification states about them.

    Conventions of the embedding.
    - A Python [str] is a [string] holding its UTF-8 encoding; the
      source's literals are kept byte for byte.  Emptiness, the substring
      test [in], [startswith], [split] on an underscore and [replace] of
      one ASCII character by another act on the encoding as they do on the
      text.
    - [str.lower] and [str.strip] depend on the Unicode tables of the
      Python runtime, which are no part of this layer: they are the two
      operations of a [Str.Runtime], and every definition and theorem
      that needs them holds for whatever runtime it is given.  The one
      thing assumed of [lower] is that it empties no text.  [Str.ascii]
      is the runtime of ASCII text, on which the closing examples run.
    - A Python [float] is a primitive binary64 [float]; its value is read
      through [Prim2SF].
    - A Python [int] is a [Z].
    - [dict]s are [gmap]s; [USERS] maps a chat id to that chat's
      preference dictionary.
    - A handler is a computation in a state-and-exception monad over the
      [world]: the preference store and the log of the calls the handler
      makes (engine requests, Telegram API calls, logging).  The store and
      the log survive a raised exception, as in Python.
    - The engine ([recommender.py]) is not part of this layer: [recommend]
      and [trending] are parameters.
    - The handlers are given the fields of the update they read
      ([update.effective_chat.id], [update.message.text], [query.data],
      [query.message.chat_id]).  The Telegram API calls of the command,
      message and button handlers are taken to complete; the error
      handler, whose source wraps its reply in [try]/[except], takes the
      outcome of that reply as an argument.  Exceptions raised by the
      layer's own code ([int] of a NaN, a missing key) are modelled
      throughout. *)

From Stdlib Require Import ZArith Floats Ascii String List Lia Bool.
From stdpp Require Import base option list gmap strings pretty.

Local Open Scope string_scope.
Local Open Scope list_scope.
Local Open Scope Z_scope.

(** ** Strings *)

Module Str.

(** [str.lower] on one character of the ASCII range. *)
Definition lower_char (a : ascii) : ascii :=
  let n := N_of_ascii a in
  if ((65 <=? n) && (n <=? 90))%N then ascii_of_N (n + 32) else a.

(** [s.lower()] on ASCII text. *)
Fixpoint ascii_lower (s : string) : string :=
  match s with
  | EmptyString => EmptyString
  | String a s' => String (lower_char a) (ascii_lower s')
  end.

(** [bool(s)]: a string is truthy when it is not empty. *)
Definition truthy (s : string) : bool :=
  match s with EmptyString => false | String _ _ => true end.

(** [needle in hay]: scan [hay] for a position where [needle] starts. *)
Fixpoint contains (needle hay : string) : bool :=
  String.prefix needle hay ||
  match hay with
  | EmptyString => false
  | String _ hay' => contains needle hay'
  end.

(** The characters [str.strip] removes from ASCII text: tab, line
    feed, vertical tab, form feed, carriage return, the four separators
    0x1C to 0x1F and the space. *)
Definition ascii_isspace (a : ascii) : bool :=
  let n := N_of_ascii a in
  (((9 <=? n) && (n <=? 13)) || ((28 <=? n) && (n <=? 32)))%N.

Fixpoint ascii_lstrip (s : string) : string :=
  match s with
  | EmptyString => EmptyString
  | String a s' => if ascii_isspace a then ascii_lstrip s' else s
  end.

Fixpoint ascii_rstrip (s : string) : string :=
  match s with
  | EmptyString => EmptyString
  | String a s' =>
      let r := ascii_rstrip s' in
      if ascii_isspace a && negb (truthy r) then EmptyString else String a r
  end.

(** [s.strip()] on ASCII text. *)
Definition ascii_strip (s : string) : string := ascii_rstrip (ascii_lstrip s).

(** Every character of [s] is whitespace (in particular when [s] is
    empty). *)
Fixpoint ascii_blank (s : string) : bool :=
  match s with
  | EmptyString => true
  | String a s' => ascii_isspace a && ascii_blank s'
  end.

(** [needle] occurs in [hay] as a substring. *)
Definition occurs (needle hay : string) : Prop :=
  ∃ pre post, hay = pre +:+ needle +:+ post.

(** [data.split("_", 1)]: the text before and after the first underscore,
    or [None] when there is no underscore (the list then has one element,
    and indexing it at 1 raises). *)
Fixpoint split_underscore (s : string) : option (string * string) :=
  match s with
  | EmptyString => None
  | String a s' =>
      if Ascii.eqb a "_"%char then Some (EmptyString, s')
      else match split_underscore s' with
           | Some (l, r) => Some (String a l, r)
           | None => None
           end
  end.

Definition nl : string := String (ascii_of_N 10) EmptyString.

(** The two operations of Python's [str] that read the runtime's Unicode
    tables: [s.lower()] and [s.strip()].  [lower] maps every character to
    one character or more, so it empties no text. *)
Class Runtime : Type := {
  lower : string → string;
  strip : string → string;
  lower_truthy : ∀ s, truthy (lower s) = truthy s
}.

(** The runtime of ASCII text: on text of code points below 128 its two
    operations are Python's. *)
Definition ascii : Runtime :=
  {| lower := ascii_lower;
     strip := ascii_strip;
     lower_truthy := λ s,
       match s with
       | EmptyString => eq_refl
       | String _ _ => eq_refl
       end |}.

End Str.

(** ** Exceptions and results *)

(** The exceptions the layer can meet.  [except Exception] catches the
    first three; [BaseOnly] stands for the classes that derive from
    [BaseException] only ([KeyboardInterrupt], [SystemExit],
    [asyncio.CancelledError]). *)
Inductive exc : Type :=
| ValueError
| OverflowError
| OtherException (name : string)
| BaseOnly (name : string).

(** [isinstance(e, Exception)] *)
Definition isinstance_Exception (e : exc) : bool :=
  match e with
  | BaseOnly _ => false
  | _ => true
  end.

Inductive result (A : Type) : Type :=
| Ok (a : A)
| Raise (e : exc).
Arguments Ok {A} a.
Arguments Raise {A} e.

(** ** Number formatting *)

Module Num.

(** The integer nearest to [10 * m * 2^e], ties to even: the digits of a
    positive binary value printed with one decimal place. *)
Definition tenths (m : positive) (e : Z) : Z :=
  if 0 <=? e then 10 * Z.pos m * 2 ^ e
  else
    let d := 2 ^ (- e) in
    let q := (10 * Z.pos m) / d in
    let r := (10 * Z.pos m) mod d in
    match 2 * r ?= d with
    | Lt => q
    | Gt => q + 1
    | Eq => if Z.even q then q else q + 1
    end.

Definition sign (s : bool) : string := if s then "-" else "".

(** The digits of [t] tenths. *)
Definition fixed1 (t : Z) : string :=
  pretty (t / 10) +:+ "." +:+ pretty (t mod 10).

(** [f"{x:.1f}"] *)
Definition format_1f (x : float) : string :=
  match Prim2SF x with
  | S754_nan => "nan"
  | S754_infinity s => sign s +:+ "inf"
  | S754_zero s => sign s +:+ "0.0"
  | S754_finite s m e => sign s +:+ fixed1 (tenths m e)
  end.

(** The integer part of [m * 2^e]. *)
Definition whole (m : positive) (e : Z) : Z :=
  if 0 <=? e then Z.pos m * 2 ^ e else Z.pos m / 2 ^ (- e).

(** [int(x)]: truncation towards zero; [ValueError] on a NaN and
    [OverflowError] on an infinity. *)
Definition int (x : float) : result Z :=
  match Prim2SF x with
  | S754_nan => Raise ValueError
  | S754_infinity _ => Raise OverflowError
  | S754_zero _ => Ok 0
  | S754_finite s m e => Ok (if s then - whole m e else whole m e)
  end.

End Num.

(** [human_int(n)], on the float that [float(n)] yields. *)
Definition human_int (n : float) : result string :=
  if (1000000 <=? n)%float then Ok (Num.format_1f (n / 1000000)%float +:+ "M")
  else if (1000 <=? n)%float then Ok (Num.format_1f (n / 1000)%float +:+ "k")
  else match Num.int n with
       | Ok z => Ok (pretty z)
       | Raise e => Raise e
       end.

(** ** Courses and preferences *)

(** Modelled from the spec: the [Course] record of [recommender.py], which
    is not part of this layer.  The fields are those of the data model;
    the three categorical fields are optional ([None] when unset), and
    [students_enrolled] is a non-negative number, the one invariant of the
    data model that the presentation helpers rely on. *)
Record Course : Type := {
  title : string;
  organization : option string;
  certificate_type : option string;
  difficulty : option string;
  rating : float;
  students_enrolled : float;
  students_nonneg : (0 <=? students_enrolled)%float = true
}.

(** A preference dictionary: the keys the layer writes are ["difficulty"]
    and ["certificate_type"], with string values. *)
Abbreviation prefs := (gmap string string).

(** [x or ""] for an optional string: [None] and the empty string both
    give the empty string. *)
Definition or_empty (x : option string) : string := default "" x.

(** [x or 'N/A'] *)
Definition or_na (x : option string) : string :=
  match x with
  | Some s => if Str.truthy s then s else "N/A"
  | None => "N/A"
  end.

(** The inner function [ok] of [_apply_user_filters], closed over the two
    lowercased preferences. *)
Definition ok {R : Str.Runtime} (level cert : string) (c : Course) : bool :=
  let good := true in
  let good :=
    if Str.truthy level
    then good && Str.contains level (Str.lower (or_empty (difficulty c)))
    else good in
  let good :=
    if Str.truthy cert
    then good && Str.contains cert (Str.lower (or_empty (certificate_type c)))
    else good in
  good.

(** [_apply_user_filters(courses, prefs)] *)
Definition _apply_user_filters {R : Str.Runtime} (courses : list Course)
    (p : prefs) : list Course :=
  let level := Str.lower (or_empty (p !! "difficulty")) in
  let cert := Str.lower (or_empty (p !! "certificate_type")) in
  List.filter (ok level cert) courses.

(** The comprehension [[c for c in courses if ok(c)]] as Python runs it: an
    iterator walks the list object [source] by index and every accepted
    element is appended to a fresh list [built]. *)
Module Comprehension.

Record frame : Type := {
  source : list Course;
  built : list Course;
  cursor : nat
}.

Definition step (keep : Course → bool) (f : frame) : option frame :=
  match source f !! cursor f with
  | None => None
  | Some c =>
      Some {| source := source f;
              built := if keep c then built f ++ [c] else built f;
              cursor := S (cursor f) |}
  end.

Fixpoint run (keep : Course → bool) (fuel : nat) (f : frame) : frame :=
  match fuel with
  | O => f
  | S fuel' =>
      match step keep f with
      | None => f
      | Some f' => run keep fuel' f'
      end
  end.

Definition start (courses : list Course) : frame :=
  {| source := courses; built := []; cursor := 0 |}.

(** One step per element, and one more to see the end of the list. *)
Definition eval (keep : Course → bool) (courses : list Course) : frame :=
  run keep (S (length courses)) (start courses).

End Comprehension.

(** [format_course(c)]; it raises when [human_int] does. *)
Definition format_course (c : Course) : result string :=
  match human_int (students_enrolled c) with
  | Raise e => Raise e
  | Ok learners =>
      Ok ("<b>" +:+ title c +:+ "</b>" +:+ Str.nl +:+
          "🏫 " +:+ or_na (organization c) +:+
          " | 🎓 " +:+ or_na (certificate_type c) +:+
          " | 🎯 " +:+ or_na (difficulty c) +:+ Str.nl +:+
          "⭐ Rating: " +:+ Num.format_1f (rating c) +:+
          "   👥 Learners: " +:+ learners)
  end.

(** ** Keyboards *)

(** An inline keyboard: rows of buttons, each a label and its callback
    data. *)
Abbreviation keyboard := (list (list (string * string))).

Definition render_level_menu (_ : string) : keyboard :=
  [ [ ("🟢 Beginner", "level_Beginner");
      ("🟡 Intermediate", "level_Intermediate");
      ("🔴 Advanced", "level_Advanced") ];
    [ ("❌ Cancel", "back_home") ] ].

Definition render_cert_menu : keyboard :=
  [ [ ("🎓 Course", "cert_COURSE");
      ("📚 Specialization", "cert_SPECIALIZATION");
      ("💼 Professional", "cert_PROFESSIONAL") ];
    [ ("⬅️ Back to Level", "back_to_level");
      ("❌ Cancel", "back_home") ] ].

Definition render_confirm_menu : keyboard :=
  [ [ ("✅ Save & Close", "confirm_save") ];
    [ ("⬅️ Back to Certificate", "back_to_cert");
      ("⬅️ Back to Level", "back_to_level") ];
    [ ("❌ Cancel", "back_home") ] ].

Definition build_url_button (_ : option string) : keyboard := [].

(** ** The world and the handler monad *)

(** The calls a handler makes, in the order it makes them. *)
Inductive call : Type :=
| Recommend (query : string) (top_k : Z)      (* RECO.recommend(query=, top_k=) *)
| Trending (top_k : Z)                        (* RECO.trending(top_k=) *)
| Reply (text : string) (html : bool) (markup : option keyboard)
                                              (* message.reply_text / reply_html *)
| Edit (text : string) (html : bool) (markup : option keyboard)
                                              (* query.edit_message_text *)
| Answer                                      (* query.answer() *)
| LogException (e : exc).                     (* logger.exception(..., exc_info=e) *)

Record world : Type := {
  USERS : gmap Z prefs;
  calls : list call
}.

Definition M (A : Type) : Type := world → result A * world.

#[global] Instance M_ret : MRet M := λ A a w, (Ok a, w).

#[global] Instance M_bind : MBind M := λ A B k m w,
  match m w with
  | (Ok a, w') => k a w'
  | (Raise e, w') => (Raise e, w')
  end.

Definition raise {A} (e : exc) : M A := λ w, (Raise e, w).

Definition lift {A} (r : result A) : M A := λ w, (r, w).

(** Record a call in the log. *)
Definition emit (c : call) : M unit :=
  λ w, (Ok tt, {| USERS := USERS w; calls := calls w ++ [c] |}).

(** A Telegram API call that completes.  [reply_html] also stands for
    [reply_text(..., parse_mode="HTML")]. *)
Definition reply_text (text : string) (markup : option keyboard) : M unit :=
  emit (Reply text false markup).
Definition reply_html (text : string) (markup : option keyboard) : M unit :=
  emit (Reply text true markup).
Definition edit_message_text (text : string) (html : bool)
    (markup : option keyboard) : M unit :=
  emit (Edit text html markup).

(** A Telegram API call whose outcome the environment decides: it is made,
    and then it either completes or raises. *)
Definition attempt (c : call) (outcome : option exc) : M unit :=
  emit c ;;
  match outcome with
  | None => mret tt
  | Some e => raise e
  end.

(** [try: body  except Exception: pass] *)
Definition try_except_Exception_pass (body : M unit) : M unit :=
  λ w, match body w with
       | (Raise e, w') =>
           if isinstance_Exception e then (Ok tt, w') else (Raise e, w')
       | r => r
       end.

(** [for x in xs: body(x)] *)
Fixpoint for_each {A} (xs : list A) (body : A → M unit) : M unit :=
  match xs with
  | [] => mret tt
  | x :: xs' => body x ;; for_each xs' body
  end.

(** [USERS.get(chat_id, {})] *)
Definition users_get (chat_id : Z) : M prefs :=
  λ w, (Ok (default ∅ (USERS w !! chat_id)), w).

(** [USERS.setdefault(chat_id, {})] *)
Definition users_setdefault (chat_id : Z) : M unit :=
  λ w, match USERS w !! chat_id with
       | Some _ => (Ok tt, w)
       | None => (Ok tt, {| USERS := <[chat_id := ∅]> (USERS w); calls := calls w |})
       end.

(** [USERS[chat_id]]; a missing key raises [KeyError]. *)
Definition users_getitem (chat_id : Z) : M prefs :=
  λ w, match USERS w !! chat_id with
       | Some p => (Ok p, w)
       | None => (Raise (OtherException "KeyError"), w)
       end.

(** [USERS[chat_id][key] = value] *)
Definition users_setitem (chat_id : Z) (key value : string) : M unit :=
  p ← users_getitem chat_id ;
  ((λ w, (Ok tt, {| USERS := <[chat_id := <[key := value]> p]> (USERS w);
                    calls := calls w |})) : M unit).

(** [USERS[chat_id].get(key, "N/A")] *)
Definition users_pref_or_na (chat_id : Z) (key : string) : M string :=
  p ← users_getitem chat_id ;
  mret (default "N/A" (p !! key)).

(** [xs or ys] on lists: an empty list is falsy. *)
Definition list_or {A} (xs ys : list A) : list A :=
  match xs with
  | [] => ys
  | _ :: _ => xs
  end.

(** ** Handlers *)

Section Handlers.

Context {R : Str.Runtime}.

(** The engine, [RECO.recommend] and [RECO.trending]. *)
Variable recommend : string → Z → list Course.
Variable trending : Z → list Course.

Definition call_recommend (query : string) (top_k : Z) : M (list Course) :=
  emit (Recommend query top_k) ;; mret (recommend query top_k).

Definition call_trending (top_k : Z) : M (list Course) :=
  emit (Trending top_k) ;; mret (trending top_k).

(** The loop that sends one card per course. *)
Definition send_cards (courses : list Course) : M unit :=
  for_each courses (λ c,
    card ← lift (format_course c) ;
    reply_html card (Some (build_url_button None))).

(** [/setprefs] *)
Definition setprefs (chat_id : Z) : M unit :=
  users_setdefault chat_id ;;
  reply_html
    "Step 1 of 3 — choose your preferred <b>difficulty level</b>:"
    (Some (render_level_menu "")).

(** [/top] *)
Definition top (chat_id : Z) : M unit :=
  p ← users_get chat_id ;
  courses ← call_trending 10 ;
  let courses := list_or (_apply_user_filters courses p) (take 5 courses) in
  reply_text "🔥 Trending courses:" None ;;
  send_cards (take 5 courses).

(** The text handler; [text] is [update.message.text]. *)
Definition on_message (chat_id : Z) (text : option string) : M unit :=
  let text := Str.strip (or_empty text) in
  if negb (Str.truthy text) then mret tt
  else
    p ← users_get chat_id ;
    pool ← call_recommend text 25 ;
    let picked := _apply_user_filters pool p in
    let picked :=
      match picked with
      | [] => take 5 pool
      | _ :: _ => picked
      end in
    reply_text "Here are your recommendations:" None ;;
    send_cards (take 5 picked).

End Handlers.

(** [data.split("_", 1)[1]]; a list of one element raises [IndexError]. *)
Definition split_underscore_1 (data : string) : M string :=
  match Str.split_underscore data with
  | Some (_, rest) => mret rest
  | None => raise (OtherException "IndexError")
  end.

(** The callback-query handler; [data] is [query.data] and [chat_id] is
    [query.message.chat_id]. *)
Definition button (chat_id : Z) (data : option string) : M unit :=
  emit Answer ;;
  users_setdefault chat_id ;;
  match data with
  | None => raise (OtherException "AttributeError")
  | Some data =>
      if String.prefix "level_" data then
        level ← split_underscore_1 data ;
        users_setitem chat_id "difficulty" level ;;
        edit_message_text
          ("Step 2 of 3 — level set to <b>" +:+ level +:+ "</b>." +:+ Str.nl +:+
           "Now pick a <b>certificate type</b>:")
          true (Some render_cert_menu)
      else if String.prefix "cert_" data then
        cert ← split_underscore_1 data ;
        users_setitem chat_id "certificate_type" cert ;;
        level ← users_pref_or_na chat_id "difficulty" ;
        edit_message_text
          ("Step 3 of 3 — review your choices:" +:+ Str.nl +:+ Str.nl +:+
           "<b>Difficulty:</b> " +:+ level +:+ Str.nl +:+
           "<b>Certificate:</b> " +:+ cert +:+ Str.nl +:+ Str.nl +:+
           "You can go back and change anything, or press <b>Save & Close</b>.")
          true (Some render_confirm_menu)
      else if String.eqb data "confirm_save" then
        level ← users_pref_or_na chat_id "difficulty" ;
        cert ← users_pref_or_na chat_id "certificate_type" ;
        edit_message_text
          ("✅ <b>Preferences saved!</b>" +:+ Str.nl +:+ Str.nl +:+
           "<b>Difficulty:</b> " +:+ level +:+ Str.nl +:+
           "<b>Certificate:</b> " +:+ cert +:+ Str.nl +:+ Str.nl +:+
           "Now type a topic (e.g., 'data science') or use /top 🔥")
          true None
      else if String.eqb data "back_to_cert" then
        edit_message_text
          "🔙 Back to Step 2 — choose your <b>certificate type</b>:"
          true (Some render_cert_menu)
      else if String.eqb data "back_to_level" then
        edit_message_text
          "🔙 Back to Step 1 — choose your preferred <b>difficulty level</b>:"
          true (Some (render_level_menu ""))
      else if String.eqb data "back_home" then
        edit_message_text
          "❌ Preferences setup cancelled. Use /setprefs to start again."
          false None
      else mret tt
  end.

(** The first argument of the error handler: any object, possibly an
    [Update], which then has an effective message or has none. *)
Inductive pyobject : Type :=
| NotAnUpdate
| AnUpdate (has_effective_message : bool).

Definition apology : string := "Oops, something went wrong. Try again.".

(** The global error handler; [error] is [context.error] and [outcome] is
    what the environment makes of the reply, should it be sent. *)
Definition error_handler (update : pyobject) (error : exc)
    (outcome : option exc) : M unit :=
  emit (LogException error) ;;
  try_except_Exception_pass
    (match update with
     | AnUpdate true => attempt (Reply apology false None) outcome
     | _ => mret tt
     end).

(** The world a process starts in. *)
Definition init : world := {| USERS := ∅; calls := [] |}.

(** ** What the specification says, in its own words *)

(** A preference is set when its key is present with a non-empty value. *)
Definition is_set (p : prefs) (key : string) : Prop :=
  ∃ s, p !! key = Some s ∧ s ≠ "".

(** A preference key that is absent or empty. *)
Definition not_set (p : prefs) (key : string) : Prop :=
  p !! key = None ∨ p !! key = Some "".

(** A course field that is unset: [None], or empty. *)
Definition unset (field : option string) : Prop :=
  field = None ∨ field = Some "".

(** A field meets a preference when the preference, if it is set, occurs
    lowercased in the lowercased field. *)
Definition meets {R : Str.Runtime} (p : prefs) (key : string)
    (field : option string) : Prop :=
  ∀ s, p !! key = Some s → s ≠ "" →
       Str.occurs (Str.lower s) (Str.lower (or_empty field)).

Definition satisfies {R : Str.Runtime} (p : prefs) (c : Course) : Prop :=
  meets p "difficulty" (difficulty c) ∧
  meets p "certificate_type" (certificate_type c).

(** The requests a log holds for the engine. *)
Definition is_engine_request (c : call) : bool :=
  match c with
  | Recommend _ _ | Trending _ => true
  | _ => false
  end.

Definition engine_requests (log : list call) : list call :=
  List.filter is_engine_request log.

(** The text of the card sent for a course. *)
Definition card_text (c : Course) : string :=
  match format_course c with
  | Ok s => s
  | Raise _ => ""
  end.

(** The call that sends the card of a course. *)
Definition card (c : Course) : call :=
  Reply (card_text c) true (Some (build_url_button None)).

(** The preferences [USERS.get(chat_id, {})] reads in a world. *)
Definition prefs_of (w : world) (chat_id : Z) : prefs :=
  default ∅ (USERS w !! chat_id).

(** Two sample courses and a sample preference dictionary. *)
Definition python_for_beginners : Course :=
  {| title := "Python for Beginners"; organization := Some "Coursera";
     certificate_type := Some "COURSE"; difficulty := Some "Beginner";
     rating := 4.5; students_enrolled := 10000;
     students_nonneg := eq_refl |}.

Definition untagged_course : Course :=
  {| title := "Excel Basics"; organization := None;
     certificate_type := None; difficulty := None;
     rating := 4; students_enrolled := 50000;
     students_nonneg := eq_refl |}.

Definition wants_beginner : prefs := {[ "difficulty" := "Beginner" ]}.

(** A finite number: neither a NaN nor an infinity. *)
Definition finite (x : float) : bool :=
  match Prim2SF x with
  | S754_zero _ | S754_finite _ _ _ => true
  | _ => false
  end.

(** [t] tenths is as near to [m * 2^e] as a whole number of tenths can
    be: the two differ by at most half a tenth. *)
Definition nearest_tenth (m : positive) (e : Z) (t : Z) : Prop :=
  let den := 2 ^ Z.max 0 (- e) in
  let num := 10 * Z.pos m * 2 ^ Z.max 0 e in
  2 * Z.abs (t * den - num) ≤ den.

(** [s] is [x] rounded to one decimal place. *)
Definition rounds_to_1dp (x : float) (s : string) : Prop :=
  match Prim2SF x with
  | S754_nan => s = "nan"
  | S754_infinity sg => s = Num.sign sg +:+ "inf"
  | S754_zero sg => s = Num.sign sg +:+ "0.0"
  | S754_finite sg m e =>
      ∃ t, nearest_tenth m e t ∧ s = Num.sign sg +:+ Num.fixed1 t
  end.

(** [z] is [x] truncated to an integer. *)
Definition truncates_to (x : float) (z : Z) : Prop :=
  match Prim2SF x with
  | S754_zero _ => z = 0
  | S754_finite sg m e =>
      let den := 2 ^ Z.max 0 (- e) in
      let num := Z.pos m * 2 ^ Z.max 0 e in
      let a := if sg then - z else z in
      0 ≤ a ∧ a * den ≤ num < (a + 1) * den
  | _ => False
  end.

(** What the text handler does for a message: it asks the engine for 25
    records, and the cards it sends are those of the first five courses of
    the filtered pool, or of the pool itself when the filter leaves
    nothing. *)
Definition on_message_renders {R : Str.Runtime}
    (recommend : string → Z → list Course)
    (chat_id : Z) (text : option string) (w : world) : Prop :=
  let query := Str.strip (or_empty text) in
  let pool := recommend query 25 in
  let filtered := _apply_user_filters pool (prefs_of w chat_id) in
  ∃ shown : list Course,
    on_message recommend chat_id text w =
      (Ok tt,
       {| USERS := USERS w;
          calls := calls w ++
                   Recommend query 25 ::
                   Reply "Here are your recommendations:" false None ::
                   map card shown |}) ∧
    (filtered ≠ [] → shown = take 5 filtered) ∧
    (filtered = [] → shown = take 5 pool) ∧
    (pool ≠ [] → shown ≠ []) ∧
    shown `sublist_of` pool.

(** What the error handler does when it contains an error: it returns
    normally, having logged the error and, for an update with an effective
    message, having replied with the apology. *)
Definition error_handler_contains (update : pyobject) (error : exc)
    (outcome : option exc) (w : world) : Prop :=
  error_handler update error outcome w =
    (Ok tt,
     {| USERS := USERS w;
        calls := calls w ++
                 LogException error ::
                 match update with
                 | AnUpdate true => [Reply apology false None]
                 | _ => []
                 end |}).

(** The preference field a callback names: ["difficulty"] for a level
    choice, ["certificate_type"] for a certificate choice, none
    otherwise. *)
Definition field_named (data : option string) (key : string) : Prop :=
  match data with
  | Some d =>
      (String.prefix "level_" d = true ∧ key = "difficulty") ∨
      (String.prefix "cert_" d = true ∧ key = "certificate_type")
  | None => False
  end.

(** From [w] to [w'] nothing is written but, for chat [chat_id], the
    fields [allowed]. *)
Definition writes_only (chat_id : Z) (allowed : string → Prop)
    (w w' : world) : Prop :=
  (∀ k, k ≠ chat_id → USERS w' !! k = USERS w !! k) ∧
  (∀ key, ¬ allowed key →
          prefs_of w' chat_id !! key = prefs_of w chat_id !! key).

(** A computation that, from any world, writes nothing but those fields. *)
Definition keeps {A} (chat_id : Z) (allowed : string → Prop) (m : M A) : Prop :=
  ∀ w, writes_only chat_id allowed w (m w).2.

(** The callbacks that choose nothing. *)
Definition navigation : list (option string) :=
  [Some "back_to_level"; Some "back_to_cert"; Some "back_home";
   Some "confirm_save"].

(** ** The rest of the layer *)

(** [/start] *)
Definition start : M unit :=
  let msg :=
    "<b>Hi! I’m your Coursera Recommender 🤖</b>" +:+ Str.nl +:+ Str.nl +:+
    "Just type what you want to learn, e.g.:" +:+ Str.nl +:+
    "• python for beginners" +:+ Str.nl +:+
    "• data science with python" +:+ Str.nl +:+ Str.nl +:+
    "Commands:" +:+ Str.nl +:+
    "/setprefs – set your level & certificate via buttons" +:+ Str.nl +:+
    "/top – show trending courses" +:+ Str.nl +:+
    "/help – quick tips" in
  reply_html msg None.

(** [/help] *)
Definition help_cmd : M unit :=
  reply_text
    ("Tips:" +:+ Str.nl +:+
     "• Send a topic (e.g., 'machine learning', 'excel basics')." +:+ Str.nl +:+
     "• Use /setprefs to choose difficulty and certificate type." +:+ Str.nl +:+
     "• Use /top to see popular picks.")
    None.

(** [s.replace("\\", "/")]: every backslash becomes a slash. *)
Fixpoint replace_backslash (s : string) : string :=
  match s with
  | EmptyString => EmptyString
  | String a s' =>
      String (if Ascii.eqb a "\"%char then "/"%char else a)
             (replace_backslash s')
  end.

(** [os.getenv(name, default)], given the value of the variable in the
    environment, if it has one. *)
Definition getenv (value : option string) (default : string) : string :=
  match value with
  | Some v => v
  | None => default
  end.

(** The module constant [DATA_PATH], as a function of the environment
    variable of that name. *)
Definition DATA_PATH (env : option string) : string :=
  replace_backslash
    (or_empty
       (Some (getenv env
          "C:/Users/Lenovo/OneDrive/Desktop/TelegramCourseBot/coursea_data.csv"))).

(** The callback data of the buttons of a keyboard. *)
Definition callback_data (k : keyboard) : list string :=
  snd <$> concat k.

(** The callback data the button handler has a branch for. *)
Definition recognised (d : string) : bool :=
  String.prefix "level_" d || String.prefix "cert_" d ||
  (d =? "confirm_save")%string || (d =? "back_to_cert")%string ||
  (d =? "back_to_level")%string || (d =? "back_home")%string.

(** A string has no backslash. *)
Fixpoint no_backslash (s : string) : bool :=
  match s with
  | EmptyString => true
  | String a s' => negb (Ascii.eqb a "\"%char) && no_backslash s'
  end.

(** A sample world: chat 7 has asked for beginner courses. *)
Definition beginner_world : world :=
  {| USERS := {[ 7 := wants_beginner ]}; calls := [] |}.

(** A sample engine that returns the same two records for every request. *)
Definition two_courses : list Course :=
  [untagged_course; python_for_beginners].

(** * Properties *)

(** ** Strings *)

Module StrFacts.
Import Str.

Lemma truthy_true s : truthy s = true ↔ s ≠ "".
Proof. destruct s; simpl; split; congruence. Qed.

Lemma truthy_false s : truthy s = false ↔ s = "".
Proof. destruct s; simpl; split; congruence. Qed.

Lemma prefix_spec a b :
  String.prefix a b = true ↔ ∃ post, b = a +:+ post.
Proof.
  revert b. induction a as [|x a IH]; intros b.
  - split; [intros _; by exists b | intros _; by destruct b].
  - destruct b as [|y b]; simpl.
    + split; [done | intros [post ?]; discriminate].
    + destruct (Ascii.ascii_dec x y) as [->|Hne].
      * rewrite IH. split; intros [post Hp]; exists post.
        -- by rewrite Hp.
        -- by injection Hp.
      * split; [done | intros [post Hp]; by injection Hp].
Qed.

Lemma contains_unfold needle hay :
  contains needle hay =
  String.prefix needle hay ||
  match hay with
  | EmptyString => false
  | String _ hay' => contains needle hay'
  end.
Proof. by destruct hay. Qed.

Lemma contains_occurs needle hay :
  contains needle hay = true ↔ occurs needle hay.
Proof.
  split.
  - induction hay as [|a hay IH];
      rewrite contains_unfold, orb_true_iff; intros [Hp|Hc]; try done.
    + apply prefix_spec in Hp as [post ->]. by exists "", post.
    + apply prefix_spec in Hp as [post ->]. by exists "", post.
    + destruct (IH Hc) as (pre & post & ->).
      by exists (String a pre), post.
  - intros (pre & post & ->).
    induction pre as [|a pre IH].
    + rewrite contains_unfold.
      apply orb_true_iff. left. apply prefix_spec. by exists post.
    + change (String a pre +:+ needle +:+ post)
        with (String a (pre +:+ needle +:+ post)).
      rewrite contains_unfold, IH. apply orb_true_r.
Qed.

Lemma contains_in_empty needle :
  truthy needle = true → contains needle "" = false.
Proof. by destruct needle. Qed.

Lemma ascii_blank_lstrip s : ascii_blank (ascii_lstrip s) = ascii_blank s.
Proof.
  induction s as [|a s IH]; simpl; [done|].
  destruct (ascii_isspace a) eqn:E; simpl; [done | by rewrite E].
Qed.

Lemma ascii_rstrip_truthy s :
  truthy (ascii_rstrip s) = negb (ascii_blank s).
Proof.
  induction s as [|a s IH]; simpl; [done|].
  rewrite IH. by destruct (ascii_isspace a), (ascii_blank s).
Qed.

(** On ASCII text, stripping leaves nothing exactly when every character
    is whitespace. *)
Lemma ascii_strip_truthy s :
  truthy (ascii_strip s) = negb (ascii_blank s).
Proof.
  unfold ascii_strip. by rewrite ascii_rstrip_truthy, ascii_blank_lstrip.
Qed.

End StrFacts.

(** ** The preference filter *)

Section Filter.
Import Str StrFacts.

Context {R : Str.Runtime}.

Lemma lower_empty : lower "" = "".
Proof. apply truthy_false. by rewrite lower_truthy. Qed.

Lemma or_empty_not_set (p : prefs) key :
  not_set p key → lower (or_empty (p !! key)) = "".
Proof. intros [->| ->]; apply lower_empty. Qed.

Lemma or_empty_is_set (p : prefs) key :
  is_set p key → truthy (lower (or_empty (p !! key))) = true.
Proof.
  intros (s & -> & Hs). rewrite lower_truthy. by apply truthy_true.
Qed.

Lemma set_or_not (p : prefs) key : is_set p key ∨ not_set p key.
Proof.
  unfold is_set, not_set. destruct (p !! key) as [s|]; [|by auto].
  destruct (decide (s = "")) as [->|]; [by auto | by eauto].
Qed.

Lemma unset_lower field : unset field → lower (or_empty field) = "".
Proof. intros [->| ->]; apply lower_empty. Qed.

(** The guard of one preference, as [ok] evaluates it. *)
Lemma guard_meets (p : prefs) key field :
  (if truthy (lower (or_empty (p !! key)))
   then contains (lower (or_empty (p !! key))) (lower (or_empty field))
   else true) = true
  ↔ meets p key field.
Proof.
  unfold meets. rewrite lower_truthy.
  destruct (p !! key) as [s|] eqn:E; simpl.
  - destruct (truthy s) eqn:T.
    + rewrite contains_occurs. split.
      * intros H s' [= <-] _. done.
      * intros H. apply H; [done|]. by apply truthy_true.
    + apply truthy_false in T as ->. split; [|done].
      by intros _ s' [= <-] ?.
  - split; [by intros _ s' ? | done].
Qed.

Lemma ok_satisfies (p : prefs) c :
  ok (lower (or_empty (p !! "difficulty")))
     (lower (or_empty (p !! "certificate_type"))) c = true
  ↔ satisfies p c.
Proof.
  unfold satisfies.
  rewrite <- (guard_meets p "difficulty"), <- (guard_meets p "certificate_type").
  unfold ok.
  destruct (truthy (lower (or_empty (p !! "difficulty"))));
    destruct (truthy (lower (or_empty (p !! "certificate_type"))));
    simpl; rewrite ?andb_true_iff; tauto.
Qed.

Lemma filter_sublist {A} (f : A → bool) l : List.filter f l `sublist_of` l.
Proof.
  induction l as [|x l IH]; simpl; [done|].
  destruct (f x); by constructor.
Qed.

Lemma filter_filter {A} (f : A → bool) l :
  List.filter f (List.filter f l) = List.filter f l.
Proof.
  induction l as [|x l IH]; simpl; [done|].
  destruct (f x) eqn:E; simpl; [by rewrite E, IH | done].
Qed.

Lemma filter_all {A} (f : A → bool) l :
  (∀ x, f x = true) → List.filter f l = l.
Proof.
  intros H. induction l as [|x l IH]; simpl; [done|]. by rewrite H, IH.
Qed.

End Filter.

(** ** Number formatting *)

Module NumFacts.
#[local] Arguments Prim2SF : simpl never.

Lemma SF_zero : Prim2SF 0 = S754_zero false.
Proof. vm_compute. reflexivity. Qed.
Lemma SF_thousand : Prim2SF 1000 = S754_finite false 8796093022208000 (-43).
Proof. vm_compute. reflexivity. Qed.
Lemma SF_million : Prim2SF 1000000 = S754_finite false 8589934592000000 (-33).
Proof. vm_compute. reflexivity. Qed.

Lemma tenths_nearest m e : nearest_tenth m e (Num.tenths m e).
Proof.
  unfold nearest_tenth, Num.tenths.
  destruct (Z.leb_spec 0 e) as [He|He].
  - rewrite (Z.max_r 0 e), (Z.max_l 0 (- e)) by lia.
    change (2 ^ 0) with 1. lia.
  - rewrite (Z.max_l 0 e), (Z.max_r 0 (- e)) by lia.
    change (2 ^ 0) with 1.
    assert (0 < 2 ^ (- e)) as Hd by (apply Z.pow_pos_nonneg; lia).
    set (d := 2 ^ (- e)) in *. set (n := 10 * Z.pos m).
    pose proof (Z.div_mod n d ltac:(lia)) as Hn.
    pose proof (Z.mod_pos_bound n d Hd) as Hr.
    set (q := n / d) in *. set (r := n mod d) in *.
    replace (n * 1) with n by lia.
    destruct (Z.compare_spec (2 * r) d); [destruct (Z.even q)| |]; nia.
Qed.

Lemma whole_bounds m e :
  let den := 2 ^ Z.max 0 (- e) in
  let num := Z.pos m * 2 ^ Z.max 0 e in
  0 ≤ Num.whole m e ∧ Num.whole m e * den ≤ num < (Num.whole m e + 1) * den.
Proof.
  unfold Num.whole. simpl.
  destruct (Z.leb_spec 0 e) as [He|He].
  - rewrite (Z.max_r 0 e), (Z.max_l 0 (- e)) by lia.
    change (2 ^ 0) with 1.
    assert (0 < 2 ^ e) by (apply Z.pow_pos_nonneg; lia). nia.
  - rewrite (Z.max_l 0 e), (Z.max_r 0 (- e)) by lia.
    change (2 ^ 0) with 1.
    assert (0 < 2 ^ (- e)) as Hd by (apply Z.pow_pos_nonneg; lia).
    set (d := 2 ^ (- e)) in *.
    pose proof (Z.div_mod (Z.pos m) d ltac:(lia)) as Hn.
    pose proof (Z.mod_pos_bound (Z.pos m) d Hd) as Hr.
    assert (0 ≤ Z.pos m / d) by (apply Z.div_pos; lia).
    nia.
Qed.

Lemma format_1f_rounds x : rounds_to_1dp x (Num.format_1f x).
Proof.
  unfold rounds_to_1dp, Num.format_1f.
  destruct (Prim2SF x) as [s|s| |s m e]; try reflexivity.
  exists (Num.tenths m e). split; [apply tenths_nearest | reflexivity].
Qed.

Lemma compare_cont_flip p q :
  Pos.compare_cont Eq q p = CompOpp (Pos.compare_cont Eq p q).
Proof. by rewrite Pos.compare_cont_antisym. Qed.

(** Below one thousand is below one million. *)
Lemma lt_thousand n :
  (n <? 1000)%float = true →
  (1000 <=? n)%float = false ∧ (1000000 <=? n)%float = false.
Proof.
  rewrite ltb_spec, !leb_spec, SF_thousand, SF_million.
  unfold SFltb, SFleb, SFcompare.
  destruct (Prim2SF n) as [s|s| |s m e]; try (intros; split; reflexivity).
  - destruct s; [split; reflexivity | discriminate].
  - destruct s; [split; reflexivity|]. intros H.
    assert (e ≤ -43) as He
      by (destruct (Z.compare_spec e (-43)); [lia | lia | discriminate]).
    assert ((-33 ?= e) = Gt) as -> by (apply Z.compare_gt_iff; lia).
    split; [|reflexivity].
    destruct (Z.compare_spec (-43) e) as [<-| |]; [|lia|reflexivity].
    rewrite Z.compare_refl in H. rewrite compare_cont_flip.
    by destruct (Pos.compare_cont Eq m 8796093022208000).
Qed.

Lemma lt_million n :
  (n <? 1000000)%float = true → (1000000 <=? n)%float = false.
Proof.
  rewrite ltb_spec, !leb_spec, SF_million.
  unfold SFltb, SFleb, SFcompare.
  destruct (Prim2SF n) as [s|s| |s m e]; try reflexivity.
  - destruct s; [reflexivity | discriminate].
  - destruct s; [reflexivity|]. intros H.
    assert (e ≤ -33) as He
      by (destruct (Z.compare_spec e (-33)); [lia | lia | discriminate]).
    destruct (Z.compare_spec (-33) e) as [<-| |]; [|lia|reflexivity].
    rewrite Z.compare_refl in H. rewrite compare_cont_flip.
    by destruct (Pos.compare_cont Eq m 8589934592000000).
Qed.

Lemma nonneg_sign n :
  (0 <=? n)%float = true →
  match Prim2SF n with
  | S754_nan | S754_infinity true | S754_finite true _ _ => False
  | _ => True
  end.
Proof.
  rewrite leb_spec, SF_zero. unfold SFleb, SFcompare.
  destruct (Prim2SF n) as [s|s| |s m e]; try done; by destruct s.
Qed.

Lemma human_int_nonneg n :
  (0 <=? n)%float = true → ∃ s, human_int n = Ok s.
Proof.
  intros H. unfold human_int.
  destruct (1000000 <=? n)%float eqn:E1; [by eauto|].
  destruct (1000 <=? n)%float eqn:E2; [by eauto|].
  apply nonneg_sign in H. unfold Num.int.
  rewrite leb_spec, SF_million in E1. unfold SFleb, SFcompare in E1.
  destruct (Prim2SF n) as [s|s| |s m e]; try done; try by eauto.
  by destruct s.
Qed.
End NumFacts.

(** ** Running the handlers *)

Section Runs.

Context {R : Str.Runtime}.

#[local] Arguments format_course : simpl never.
#[local] Arguments card_text : simpl never.

Lemma format_course_ok c : format_course c = Ok (card_text c).
Proof.
  unfold card_text, format_course.
  by destruct (NumFacts.human_int_nonneg _ (students_nonneg c)) as [s ->].
Qed.

Lemma send_cards_run cs w :
  send_cards cs w =
  (Ok tt, {| USERS := USERS w; calls := calls w ++ map card cs |}).
Proof.
  revert w. induction cs as [|c cs IH]; intros [u log].
  - unfold send_cards. simpl. by rewrite app_nil_r.
  - unfold send_cards in *. simpl.
    unfold mbind, M_bind, lift at 1. rewrite format_course_ok.
    unfold reply_html, emit. simpl. rewrite IH. simpl.
    by rewrite <- app_assoc.
Qed.

Lemma top_run trending chat_id w :
  top trending chat_id w =
  (Ok tt,
   {| USERS := USERS w;
      calls := calls w ++
               Trending 10 ::
               Reply "🔥 Trending courses:" false None ::
               map card
                 (take 5 (list_or
                            (_apply_user_filters (trending 10)
                                                 (prefs_of w chat_id))
                            (take 5 (trending 10)))) |}).
Proof.
  destruct w as [u log].
  unfold top, call_trending, users_get, reply_text, emit, mbind, M_bind,
    mret, M_ret, prefs_of.
  simpl. rewrite send_cards_run. simpl.
  by rewrite <- !app_assoc.
Qed.

Lemma on_message_blank recommend chat_id text w :
  Str.strip (or_empty text) = "" →
  on_message recommend chat_id text w = (Ok tt, w).
Proof. intros Hb. unfold on_message. by rewrite Hb. Qed.

Lemma on_message_run recommend chat_id text w :
  Str.strip (or_empty text) ≠ "" →
  on_message recommend chat_id text w =
  (Ok tt,
   {| USERS := USERS w;
      calls := calls w ++
               Recommend (Str.strip (or_empty text)) 25 ::
               Reply "Here are your recommendations:" false None ::
               map card
                 (take 5
                    (match _apply_user_filters
                             (recommend (Str.strip (or_empty text)) 25)
                             (prefs_of w chat_id) with
                     | [] => take 5 (recommend (Str.strip (or_empty text)) 25)
                     | c :: cs => c :: cs
                     end)) |}).
Proof.
  intros Hb%StrFacts.truthy_true. destruct w as [u log].
  unfold on_message. rewrite Hb.
  unfold call_recommend, users_get, reply_text, emit, mbind, M_bind,
    mret, M_ret, prefs_of.
  simpl. rewrite send_cards_run. simpl.
  rewrite <- !app_assoc. simpl.
  by destruct (_apply_user_filters _ _).
Qed.

Lemma error_handler_run update error outcome w :
  error_handler update error outcome w =
  (match update, outcome with
   | AnUpdate true, Some e =>
       if isinstance_Exception e then Ok tt else Raise e
   | _, _ => Ok tt
   end,
   {| USERS := USERS w;
      calls := calls w ++
               LogException error ::
               match update with
               | AnUpdate true => [Reply apology false None]
               | _ => []
               end |}).
Proof.
  destruct w as [u log].
  unfold error_handler, try_except_Exception_pass, attempt, emit, raise,
    mbind, M_bind, mret, M_ret.
  destruct update as [|[|]]; simpl; try done.
  - destruct outcome as [e|]; simpl.
    + destruct (isinstance_Exception e); by rewrite <- app_assoc.
    + by rewrite <- app_assoc.
Qed.

Lemma engine_requests_app l1 l2 :
  engine_requests (l1 ++ l2) = engine_requests l1 ++ engine_requests l2.
Proof. apply List.filter_app. Qed.

Lemma engine_requests_cards cs : engine_requests (map card cs) = [].
Proof. induction cs as [|c cs IH]; [done | by simpl]. Qed.

End Runs.

(** ** The comprehension, step by step *)

Section ComprehensionFacts.
Import Comprehension.

Lemma run_source keep fuel f : source (run keep fuel f) = source f.
Proof.
  revert f. induction fuel as [|fuel IH]; intros f; simpl; [done|].
  unfold step. destruct (source f !! cursor f); [|done].
  by rewrite IH.
Qed.

Lemma run_built keep fuel f :
  (length (source f) - cursor f < fuel)%nat →
  built (run keep fuel f) =
  built f ++ List.filter keep (drop (cursor f) (source f)).
Proof.
  revert f. induction fuel as [|fuel IH]; intros f Hf; simpl; [lia|].
  unfold step. destruct (source f !! cursor f) as [c|] eqn:E.
  - rewrite IH; simpl.
    + rewrite (drop_S _ _ _ E). simpl.
      destruct (keep c); [by rewrite <- app_assoc | done].
    + apply lookup_lt_Some in E. lia.
  - apply lookup_ge_None in E. rewrite drop_ge by done.
    simpl. by rewrite app_nil_r.
Qed.

Lemma eval_built keep courses :
  built (eval keep courses) = List.filter keep courses.
Proof. unfold eval. rewrite run_built; simpl; [done | lia]. Qed.

Lemma eval_source keep courses : source (eval keep courses) = courses.
Proof. unfold eval. by rewrite run_source. Qed.

End ComprehensionFacts.

(** ** The claims about the preference filter *)

(** C1. [_apply_user_filters] returns exactly the courses that satisfy
    every set preference: a course is in the result iff it is in the input
    and, for each of the two preferences that is set, the lowercased
    preference occurs as a substring of the course's lowercased field; a
    key that is absent or empty constrains nothing.  Lowercasing is the
    runtime's, whatever it does to text outside ASCII.  The handlers pass
    the engine the query text and the number of records only: the requests
    they make do not depend on the stored preferences, so the filtering by
    preference happens in this function and nowhere in [recommend] or
    [trending]. *)
Theorem apply_user_filters_exact {R : Str.Runtime}
    (courses : list Course) (p : prefs) :
  (∀ c, c ∈ _apply_user_filters courses p ↔ c ∈ courses ∧ satisfies p c) ∧
  (∀ key field, not_set p key → meets p key field) ∧
  (∀ recommend chat_id text w,
     engine_requests (calls (on_message recommend chat_id text w).2) =
     engine_requests (calls w) ++
     (if Str.truthy (Str.strip (or_empty text))
      then [Recommend (Str.strip (or_empty text)) 25]
      else [])) ∧
  (∀ trending chat_id w,
     engine_requests (calls (top trending chat_id w).2) =
     engine_requests (calls w) ++ [Trending 10]).
Proof.
  split; [|split; [|split]].
  - intros c. unfold _apply_user_filters.
    rewrite !list_elem_of_In, List.filter_In, ok_satisfies. done.
  - intros key field [Hk|Hk] s Hs Hne; rewrite Hk in Hs; congruence.
  - intros recommend chat_id text w.
    destruct (Str.truthy (Str.strip (or_empty text))) eqn:Hb.
    + apply StrFacts.truthy_true in Hb.
      rewrite on_message_run by done. simpl.
      rewrite engine_requests_app. simpl.
      by rewrite engine_requests_cards.
    + apply StrFacts.truthy_false in Hb.
      rewrite on_message_blank by done. simpl. by rewrite app_nil_r.
  - intros trending chat_id w. rewrite top_run. simpl.
    rewrite engine_requests_app. simpl.
    by rewrite engine_requests_cards.
Qed.

(** C2, amended.  The filter reads an unset field as the empty string,
    which contains no non-empty preference: a course whose difficulty
    (resp. certificate type) is unset is excluded whenever that preference
    is set. *)
Theorem unset_field_excluded {R : Str.Runtime}
    (courses : list Course) (p : prefs) (c : Course) :
  (unset (difficulty c) ∧ is_set p "difficulty") ∨
  (unset (certificate_type c) ∧ is_set p "certificate_type") →
  c ∉ _apply_user_filters courses p.
Proof.
  intros H Hin. unfold _apply_user_filters in Hin.
  apply list_elem_of_In, List.filter_In in Hin as [_ Hok].
  unfold ok in Hok.
  destruct H as [[Hu Hs]|[Hu Hs]];
    apply or_empty_is_set in Hs; apply unset_lower in Hu;
    rewrite Hs, Hu, (StrFacts.contains_in_empty _ Hs) in Hok; simpl in Hok.
  - destruct (Str.truthy _) in Hok; discriminate.
  - rewrite andb_false_r in Hok. discriminate.
Qed.

(** C9. When neither preference is set (each key is absent or empty), the
    filter returns its argument: the same courses in the same order. *)
Theorem apply_user_filters_no_prefs {R : Str.Runtime}
    (courses : list Course) (p : prefs) :
  not_set p "difficulty" → not_set p "certificate_type" →
  _apply_user_filters courses p = courses.
Proof.
  intros Hd Hc. unfold _apply_user_filters.
  rewrite (or_empty_not_set _ _ Hd), (or_empty_not_set _ _ Hc).
  by apply filter_all.
Qed.

(** C10. The result is a subsequence of the input, in the input's order;
    filtering the result again with the same preferences changes nothing;
    and the comprehension that builds the result only reads the input
    list: when it ends, the list it walked is the list it was given. *)
Theorem apply_user_filters_subsequence {R : Str.Runtime}
    (courses : list Course) (p : prefs) :
  _apply_user_filters courses p `sublist_of` courses ∧
  _apply_user_filters (_apply_user_filters courses p) p =
    _apply_user_filters courses p ∧
  (let keep := ok (Str.lower (or_empty (p !! "difficulty")))
                  (Str.lower (or_empty (p !! "certificate_type"))) in
   Comprehension.built (Comprehension.eval keep courses) =
     _apply_user_filters courses p ∧
   Comprehension.source (Comprehension.eval keep courses) = courses).
Proof.
  unfold _apply_user_filters. repeat split.
  - apply filter_sublist.
  - apply filter_filter.
  - apply eval_built.
  - apply eval_source.
Qed.

(** ** The claims about the handlers *)

Section Shown.

Context {R : Str.Runtime}.

Lemma take_sublist {A} n (l : list A) : take n l `sublist_of` l.
Proof. apply sublist_take. Qed.

Lemma take_take_same {A} n (l : list A) : take n (take n l) = take n l.
Proof. rewrite take_take. f_equal. lia. Qed.

Lemma take_succ_nonempty {A} n (l : list A) : l ≠ [] → take (S n) l ≠ [].
Proof. by destruct l. Qed.

Lemma filtered_sublist courses p : _apply_user_filters courses p `sublist_of` courses.
Proof. apply filter_sublist. Qed.

End Shown.

(** C3, amended.  For every inbound text message whose text is not empty
    after stripping, the handler requests 25 records from
    [recommend]; the courses it renders are the first at most 5 of the
    preference-filtered pool or, exactly when the filtered pool is empty,
    the first at most 5 of the unfiltered pool; so a non-empty pool always
    shows at least one course, and the courses shown come from the pool in
    the engine's order. *)
Theorem on_message_shows {R : Str.Runtime}
    (recommend : string → Z → list Course)
    (chat_id : Z) (text : option string) (w : world) :
  Str.strip (or_empty text) ≠ "" →
  on_message_renders recommend chat_id text w.
Proof.
  intros Hb. unfold on_message_renders.
  set (pool := recommend (Str.strip (or_empty text)) 25).
  pose proof (filtered_sublist pool (prefs_of w chat_id)) as Hsub.
  eexists. split; [by apply on_message_run|].
  fold pool. destruct (_apply_user_filters pool (prefs_of w chat_id)) as [|c cs].
  - rewrite take_take_same. repeat split; try done.
    + intros Hp. by apply take_succ_nonempty.
    + apply take_sublist.
  - repeat split; try done.
    etrans; [apply take_sublist | done].
Qed.

(** C4. [/top] requests the top 10 records from [trending], applies the
    preference filter, falls back to the first 5 unfiltered records
    exactly when the filter leaves nothing, and renders at most 5 courses,
    each among the records [trending] returned and in their order. *)
Theorem top_shows {R : Str.Runtime}
    (trending : Z → list Course) (chat_id : Z) (w : world) :
  let filtered := _apply_user_filters (trending 10) (prefs_of w chat_id) in
  ∃ shown : list Course,
    top trending chat_id w =
      (Ok tt,
       {| USERS := USERS w;
          calls := calls w ++
                   Trending 10 ::
                   Reply "🔥 Trending courses:" false None ::
                   map card shown |}) ∧
    (filtered ≠ [] → shown = take 5 filtered) ∧
    (filtered = [] → shown = take 5 (trending 10)) ∧
    (length shown ≤ 5)%nat ∧
    shown `sublist_of` trending 10 ∧
    (∀ c, c ∈ shown → c ∈ trending 10).
Proof.
  intros filtered.
  pose proof (filtered_sublist (trending 10) (prefs_of w chat_id)) as Hsub.
  fold filtered in Hsub.
  eexists. split; [apply top_run|]. fold filtered.
  assert (take 5 (list_or filtered (take 5 (trending 10)))
            `sublist_of` trending 10) as Hshown.
  { destruct filtered; unfold list_or.
    - rewrite take_take_same. apply take_sublist.
    - etrans; [apply take_sublist | done]. }
  repeat split.
  - by destruct filtered.
  - intros ->. simpl. apply take_take_same.
  - rewrite length_take. lia.
  - done.
  - intros c Hc. by eapply elem_of_sublist.
Qed.

(** C5. A message whose text is empty after stripping (it is empty, or
    it is whitespace only) makes the handler return at once: the world is
    left as it was, so no request went to [recommend] and no reply was
    sent. *)
Theorem on_message_blank_returns {R : Str.Runtime}
    (recommend : string → Z → list Course)
    (chat_id : Z) (text : option string) (w : world) :
  Str.strip (or_empty text) = "" →
  on_message recommend chat_id text w = (Ok tt, w) ∧
  calls (on_message recommend chat_id text w).2 = calls w.
Proof.
  intros Hb. rewrite on_message_blank by done. by split.
Qed.

(** C6, as stated, fails: when the reply is cut short by an exception that
    does not derive from [Exception], here a task cancellation, the error
    handler lets it through. *)
Lemma error_handler_lets_cancellation_through :
  error_handler (AnUpdate true) ValueError
                (Some (BaseOnly "asyncio.CancelledError")) init =
  (Raise (BaseOnly "asyncio.CancelledError"),
   {| USERS := ∅;
      calls := [LogException ValueError; Reply apology false None] |}) ∧
  ¬ error_handler_contains (AnUpdate true) ValueError
      (Some (BaseOnly "asyncio.CancelledError")) init.
Proof.
  split; [reflexivity|]. unfold error_handler_contains.
  rewrite error_handler_run. discriminate.
Qed.

(** C6, amended.  The error handler logs the exception, replies with the
    apology whenever the update carries an effective message, and never
    lets an exception that derives from [Exception] propagate: any such
    failure of the reply is swallowed. *)
Theorem error_handler_swallows (update : pyobject) (error : exc)
    (outcome : option exc) (w : world) :
  (∀ e, outcome = Some e → isinstance_Exception e = true) →
  error_handler_contains update error outcome w.
Proof.
  intros He. unfold error_handler_contains. rewrite error_handler_run.
  destruct update as [|[|]]; try done.
  destruct outcome as [e|]; [|done]. by rewrite (He e).
Qed.

Lemma error_handler_swallows_witness :
  error_handler_contains (AnUpdate true) ValueError
    (Some (OtherException "telegram.error.NetworkError")) init.
Proof.
  apply (error_handler_swallows (AnUpdate true) ValueError
           (Some (OtherException "telegram.error.NetworkError")) init).
  intros e [= <-]. reflexivity.
Defined.

(** ** The frame of the button handler *)

Section Frame.
Context (chat_id : Z) (allowed : string → Prop).

Lemma writes_only_refl w : writes_only chat_id allowed w w.
Proof. by split. Qed.

Lemma writes_only_trans w1 w2 w3 :
  writes_only chat_id allowed w1 w2 →
  writes_only chat_id allowed w2 w3 →
  writes_only chat_id allowed w1 w3.
Proof.
  intros [Ha Hb] [Hc Hd]. split.
  - intros k Hk. by rewrite Hc, Ha.
  - intros key Hkey. by rewrite Hd, Hb.
Qed.

Lemma keeps_ret {A} (a : A) : keeps chat_id allowed (mret a).
Proof. intros w. apply writes_only_refl. Qed.

Lemma keeps_raise {A} e : keeps chat_id allowed (raise (A:=A) e).
Proof. intros w. apply writes_only_refl. Qed.

Lemma keeps_bind {A B} (m : M A) (k : A → M B) :
  keeps chat_id allowed m → (∀ a, keeps chat_id allowed (k a)) →
  keeps chat_id allowed (m ≫= k).
Proof.
  intros Hm Hk w. unfold mbind, M_bind.
  specialize (Hm w). destruct (m w) as [[a|e] w']; simpl in *; [|done].
  eapply writes_only_trans; [done | apply Hk].
Qed.

Lemma keeps_emit c : keeps chat_id allowed (emit c).
Proof. intros w. by split. Qed.

Lemma keeps_edit text html markup :
  keeps chat_id allowed (edit_message_text text html markup).
Proof. apply keeps_emit. Qed.

Lemma keeps_setdefault : keeps chat_id allowed (users_setdefault chat_id).
Proof.
  intros w. unfold users_setdefault.
  destruct (USERS w !! chat_id) eqn:E; simpl; [by split|]. split; simpl.
  - intros k Hk. by rewrite lookup_insert_ne.
  - intros key _. unfold prefs_of. simpl.
    by rewrite lookup_insert_eq, E.
Qed.

Lemma keeps_getitem : keeps chat_id allowed (users_getitem chat_id).
Proof.
  intros w. unfold users_getitem.
  destruct (USERS w !! chat_id); apply writes_only_refl.
Qed.

Lemma keeps_pref_or_na key :
  keeps chat_id allowed (users_pref_or_na chat_id key).
Proof.
  apply keeps_bind; [apply keeps_getitem | intros p; apply keeps_ret].
Qed.

Lemma keeps_setitem key value :
  allowed key → keeps chat_id allowed (users_setitem chat_id key value).
Proof.
  intros Hkey w. unfold users_setitem, users_getitem, mbind, M_bind.
  destruct (USERS w !! chat_id) as [p|] eqn:E; simpl; [|by split].
  split; simpl.
  - intros k Hk. by rewrite lookup_insert_ne.
  - intros key' Hkey'. unfold prefs_of. simpl.
    rewrite lookup_insert_eq, E. simpl.
    apply lookup_insert_ne. by intros ->.
Qed.

Lemma keeps_split data : keeps chat_id allowed (split_underscore_1 data).
Proof.
  unfold split_underscore_1.
  destruct (Str.split_underscore data) as [[? ?]|];
    [apply keeps_ret | apply keeps_raise].
Qed.

End Frame.

Lemma level_is_not_cert d :
  String.prefix "level_" d = true → String.prefix "cert_" d = false.
Proof.
  intros [post ->]%StrFacts.prefix_spec. reflexivity.
Qed.

Lemma button_keeps chat_id data :
  keeps chat_id (field_named data) (button chat_id data).
Proof.
  unfold button.
  apply keeps_bind; [apply keeps_emit | intros _].
  apply keeps_bind; [apply keeps_setdefault | intros _].
  destruct data as [d|]; [|apply keeps_raise].
  destruct (String.prefix "level_" d) eqn:Hl.
  { apply keeps_bind; [apply keeps_split | intros level].
    apply keeps_bind; [|intros _; apply keeps_edit].
    apply keeps_setitem. left. by rewrite Hl. }
  destruct (String.prefix "cert_" d) eqn:Hc.
  { apply keeps_bind; [apply keeps_split | intros cert].
    apply keeps_bind; [|intros _].
    - apply keeps_setitem. right. by rewrite Hc.
    - apply keeps_bind; [apply keeps_pref_or_na | intros; apply keeps_edit]. }
  destruct (d =? "confirm_save")%string.
  { apply keeps_bind; [apply keeps_pref_or_na | intros level].
    apply keeps_bind; [apply keeps_pref_or_na | intros; apply keeps_edit]. }
  repeat (destruct (_ =? _)%string; [apply keeps_edit|]).
  apply keeps_ret.
Qed.

Lemma navigation_names_no_field data key :
  data ∈ navigation → ¬ field_named data key.
Proof.
  unfold navigation. rewrite !elem_of_cons, elem_of_nil.
  intros [->|[->|[->|[->|[]]]]] [[H _]|[H _]]; discriminate H.
Qed.

(** C7. Whatever the callback, the button handler writes at most the one
    preference field the callback names, for the originating chat: every
    other field of that chat and the entry of every other chat stay as
    they were.  So a certificate choice leaves the stored difficulty
    alone, and the four navigation callbacks ([back_to_level],
    [back_to_cert], [back_home], [confirm_save]) change no stored
    preference of any chat. *)
Theorem button_frame (chat_id : Z) (data : option string) (w : world) :
  let w' := (button chat_id data w).2 in
  (∀ k, k ≠ chat_id → USERS w' !! k = USERS w !! k) ∧
  (∀ key, ¬ field_named data key →
          prefs_of w' chat_id !! key = prefs_of w chat_id !! key) ∧
  (∀ d, data = Some d → String.prefix "cert_" d = true →
        prefs_of w' chat_id !! "difficulty" =
        prefs_of w chat_id !! "difficulty") ∧
  (data ∈ navigation → ∀ k, prefs_of w' k = prefs_of w k).
Proof.
  intros w'. destruct (button_keeps chat_id data w) as [Hother Hsame].
  fold w' in Hother, Hsame. repeat split; try done.
  - intros d -> Hc. apply Hsame. intros [[Hl _]|[_ ?]]; [|done].
    apply level_is_not_cert in Hl. congruence.
  - intros Hnav k. destruct (decide (k = chat_id)) as [->|Hk].
    + apply map_eq. intros key. apply Hsame.
      by apply navigation_names_no_field.
    + unfold prefs_of. by rewrite Hother.
Qed.

(** A level choice does write the chosen level, and a later certificate
    choice keeps it. *)
Example button_level_writes :
  prefs_of (button 7 (Some "level_Beginner") init).2 7 !! "difficulty" =
  Some "Beginner".
Proof. by vm_compute. Qed.

Example button_cert_keeps_level :
  let w := (button 7 (Some "level_Beginner") init).2 in
  prefs_of (button 7 (Some "cert_COURSE") w).2 7 =
  {[ "difficulty" := "Beginner"; "certificate_type" := "COURSE" ]}.
Proof. by vm_compute. Qed.

(** For a chat the store has not seen, a navigation callback leaves an
    empty dictionary behind ([USERS.setdefault]), which holds no
    preference. *)
Example button_back_home_new_chat :
  USERS (button 7 (Some "back_home") init).2 = {[ 7 := ∅ ]}.
Proof. by vm_compute. Qed.

(** ** The claim about [human_int] *)

(** C8. For a non-negative finite [n], [human_int] returns [n/1000000]
    rounded to one decimal place followed by ["M"] when [n >= 1000000],
    [n/1000] rounded to one decimal place followed by ["k"] when
    [1000 <= n < 1000000], and the decimal digits of [n] truncated to an
    integer when [n < 1000]; [7600.0] gives ["7.6k"] and [1200000.0] gives
    ["1.2M"]. *)
Theorem human_int_shortens (n : float) :
  finite n = true → (0 <=? n)%float = true →
  ((1000000 <=? n)%float = true →
     ∃ s, human_int n = Ok (s +:+ "M") ∧ rounds_to_1dp (n / 1000000) s) ∧
  ((1000 <=? n)%float = true → (n <? 1000000)%float = true →
     ∃ s, human_int n = Ok (s +:+ "k") ∧ rounds_to_1dp (n / 1000) s) ∧
  ((n <? 1000)%float = true →
     ∃ z, human_int n = Ok (pretty z) ∧ truncates_to n z) ∧
  human_int 7600 = Ok "7.6k" ∧
  human_int 1200000 = Ok "1.2M".
Proof.
  intros Hfin Hpos. unfold human_int.
  split; [|split; [|split; [|split]]].
  - intros ->. eexists. split; [done | apply NumFacts.format_1f_rounds].
  - intros -> ->%NumFacts.lt_million.
    eexists. split; [done | apply NumFacts.format_1f_rounds].
  - intros [-> ->]%NumFacts.lt_thousand.
    apply NumFacts.nonneg_sign in Hpos.
    unfold finite in Hfin. unfold Num.int, truncates_to.
    destruct (Prim2SF n) as [s|s| |s m e]; try done.
    + by exists 0.
    + destruct s; [done|]. exists (Num.whole m e).
      split; [done | apply NumFacts.whole_bounds].
  - by vm_compute.
  - by vm_compute.
Qed.

Lemma human_int_shortens_witness :
  ∃ s, human_int 7600 = Ok (s +:+ "k") ∧ rounds_to_1dp (7600 / 1000) s.
Proof.
  apply (human_int_shortens 7600); by vm_compute.
Defined.

(** Further values of [human_int]. *)
Example human_int_below_thousand : human_int 999.75 = Ok "999".
Proof. by vm_compute. Qed.
Example human_int_tie_to_even : human_int 1250000 = Ok "1.2M".
Proof. by vm_compute. Qed.
Example human_int_nan : human_int nan = Raise ValueError.
Proof. by vm_compute. Qed.
Example human_int_infinity : human_int infinity = Ok "infM".
Proof. by vm_compute. Qed.


(** * Further properties of the layer *)

(** ** [human_int] and [format_course] *)

(** X1. [human_int] raises only on a NaN ([ValueError]) and on minus
    infinity ([OverflowError]); every other number gives a string. *)
Theorem human_int_raises (n : float) :
  (Prim2SF n = S754_nan → human_int n = Raise ValueError) ∧
  (Prim2SF n = S754_infinity true → human_int n = Raise OverflowError) ∧
  (Prim2SF n ≠ S754_nan → Prim2SF n ≠ S754_infinity true →
   ∃ s, human_int n = Ok s).
Proof.
  unfold human_int, Num.int.
  rewrite !leb_spec, NumFacts.SF_million, NumFacts.SF_thousand.
  unfold SFleb, SFcompare.
  destruct (Prim2SF n) as [s|s| |s m e].
  - repeat split; try done. eauto.
  - destruct s; repeat split; try done. eauto.
  - repeat split; done.
  - repeat split; try done. intros _ _.
    destruct s; [eauto|].
    repeat (match goal with |- context [match ?c with _ => _ end] =>
              destruct c end); eauto.
Qed.

(** X2. A negative finite number is never shortened, whatever its size:
    [human_int] prints its truncation towards zero. *)
Theorem human_int_negative (n : float) :
  finite n = true → (n <? 0)%float = true →
  ∃ z, human_int n = Ok (pretty z) ∧ truncates_to n z ∧ z ≤ 0.
Proof.
  unfold finite, human_int, Num.int, truncates_to.
  rewrite ltb_spec, !leb_spec,
    NumFacts.SF_zero, NumFacts.SF_million, NumFacts.SF_thousand.
  unfold SFltb, SFleb, SFcompare.
  destruct (Prim2SF n) as [s|s| |s m e]; try done.
  destruct s; [|done]. intros _ _.
  exists (- Num.whole m e).
  pose proof (NumFacts.whole_bounds m e) as H. simpl in H.
  rewrite Z.opp_involutive. repeat split; try apply H. lia.
Qed.

Lemma human_int_negative_witness :
  ∃ z, human_int (-1500000) = Ok (pretty z) ∧
       truncates_to (-1500000) z ∧ z ≤ 0.
Proof.
  apply (human_int_negative (-1500000)); by vm_compute.
Defined.

Example human_int_negative_sample : human_int (-1500000) = Ok "-1500000".
Proof. by vm_compute. Qed.

(** X3. [format_course] never raises on a course of the data model, and
    the card opens with the title in bold on a line of its own. *)
Theorem format_course_never_raises (c : Course) :
  ∃ rest,
    format_course c =
    Ok ("<b>" +:+ title c +:+ "</b>" +:+ Str.nl +:+ rest).
Proof.
  unfold format_course.
  destruct (NumFacts.human_int_nonneg _ (students_nonneg c)) as [s ->].
  eexists. reflexivity.
Qed.

(** ** More on the preference filter *)

Lemma ok_splits {R : Str.Runtime} level cert c :
  ok level cert c = ok level "" c && ok "" cert c.
Proof.
  unfold ok. simpl.
  destruct (Str.truthy level), (Str.truthy cert); simpl;
    by rewrite ?andb_true_r.
Qed.

Lemma filter_then_filter {A} (f g : A → bool) l :
  List.filter g (List.filter f l) = List.filter (λ x, f x && g x) l.
Proof.
  induction l as [|x l IH]; simpl; [done|].
  destruct (f x); simpl; [|done]. destruct (g x); by rewrite IH.
Qed.

Lemma filter_ext_bool {A} (f g : A → bool) l :
  (∀ x, f x = g x) → List.filter f l = List.filter g l.
Proof.
  intros H. induction l as [|x l IH]; simpl; [done|]. by rewrite H, IH.
Qed.

(** X5. Filtering by both preferences is filtering by the difficulty
    alone and then by the certificate type alone, or the other way
    round. *)
Theorem filter_by_both_is_one_after_the_other {R : Str.Runtime}
    (courses : list Course) (p : prefs) :
  _apply_user_filters courses p =
    _apply_user_filters
      (_apply_user_filters courses (delete "certificate_type" p))
      (delete "difficulty" p) ∧
  _apply_user_filters courses p =
    _apply_user_filters
      (_apply_user_filters courses (delete "difficulty" p))
      (delete "certificate_type" p).
Proof.
  unfold _apply_user_filters.
  rewrite !lookup_delete_eq, !lookup_delete_ne by done. simpl.
  rewrite !lower_empty, !filter_then_filter. split; apply filter_ext_bool; intros c.
  - apply ok_splits.
  - rewrite ok_splits. apply andb_comm.
Qed.

Lemma filter_sublist_impl {A} (f g : A → bool) l :
  (∀ x, f x = true → g x = true) →
  List.filter f l `sublist_of` List.filter g l.
Proof.
  intros H. induction l as [|x l IH]; simpl; [done|].
  destruct (f x) eqn:E.
  - rewrite (H x E). by constructor.
  - destruct (g x); [by constructor | done].
Qed.

(** X6. Setting a preference that was not set can only narrow the result:
    the courses selected afterwards are a subsequence of those selected
    before. *)
Theorem setting_a_preference_narrows {R : Str.Runtime}
    (courses : list Course) (p : prefs) (key value : string) :
  not_set p key →
  _apply_user_filters courses (<[key := value]> p)
    `sublist_of` _apply_user_filters courses p.
Proof.
  intros Hk. unfold _apply_user_filters.
  apply filter_sublist_impl. intros c.
  assert (∀ key', key' ≠ key →
            <[key := value]> p !! key' = p !! key') as Hne
    by (intros; by apply lookup_insert_ne).
  destruct (decide (key = "difficulty")) as [->|Hd];
    [|destruct (decide (key = "certificate_type")) as [->|Hc]].
  - rewrite (or_empty_not_set p _ Hk), (Hne "certificate_type") by done.
    rewrite (ok_splits _ _ c). by intros [_ ?]%andb_true_iff.
  - rewrite (or_empty_not_set p _ Hk), (Hne "difficulty") by done.
    rewrite (ok_splits _ _ c). by intros [? _]%andb_true_iff.
  - by rewrite !Hne by done.
Qed.


(** ** Running the other handlers *)

Section MoreRuns.

Lemma bind_ok {A B} (m : M A) (k : A → M B) w a w' :
  m w = (Ok a, w') → (m ≫= k) w = k a w'.
Proof. intros H. unfold mbind, M_bind. by rewrite H. Qed.

Lemma emit_run c u log :
  emit c {| USERS := u; calls := log |} =
  (Ok tt, {| USERS := u; calls := log ++ [c] |}).
Proof. done. Qed.

Lemma setdefault_run chat_id u log :
  users_setdefault chat_id {| USERS := u; calls := log |} =
  (Ok tt, {| USERS := <[chat_id := default ∅ (u !! chat_id)]> u;
             calls := log |}).
Proof.
  unfold users_setdefault. simpl.
  destruct (u !! chat_id) eqn:E; simpl; [|done]. by rewrite insert_id.
Qed.

Lemma getitem_present chat_id p u log :
  users_getitem chat_id {| USERS := <[chat_id := p]> u; calls := log |} =
  (Ok p, {| USERS := <[chat_id := p]> u; calls := log |}).
Proof. unfold users_getitem. simpl. by rewrite lookup_insert_eq. Qed.

Lemma setitem_present chat_id key value p u log :
  users_setitem chat_id key value
    {| USERS := <[chat_id := p]> u; calls := log |} =
  (Ok tt, {| USERS := <[chat_id := <[key := value]> p]> u; calls := log |}).
Proof.
  unfold users_setitem. erewrite bind_ok by apply getitem_present.
  simpl. by rewrite insert_insert_eq.
Qed.

Lemma pref_or_na_present chat_id key p u log :
  users_pref_or_na chat_id key
    {| USERS := <[chat_id := p]> u; calls := log |} =
  (Ok (default "N/A" (p !! key)),
   {| USERS := <[chat_id := p]> u; calls := log |}).
Proof.
  unfold users_pref_or_na. by erewrite bind_ok by apply getitem_present.
Qed.

Lemma prefix_of_append a b : String.prefix a (a +:+ b) = true.
Proof. apply StrFacts.prefix_spec. by exists b. Qed.

Lemma start_run u log :
  ∃ msg,
    start {| USERS := u; calls := log |} =
    (Ok tt, {| USERS := u; calls := log ++ [Reply msg true None] |}).
Proof. eexists. reflexivity. Qed.

Lemma help_cmd_run u log :
  ∃ msg,
    help_cmd {| USERS := u; calls := log |} =
    (Ok tt, {| USERS := u; calls := log ++ [Reply msg false None] |}).
Proof. eexists. reflexivity. Qed.

Lemma setprefs_run chat_id u log :
  setprefs chat_id {| USERS := u; calls := log |} =
  (Ok tt,
   {| USERS := <[chat_id := default ∅ (u !! chat_id)]> u;
      calls := log ++
        [Reply "Step 1 of 3 — choose your preferred <b>difficulty level</b>:"
               true (Some (render_level_menu ""))] |}).
Proof.
  unfold setprefs. by erewrite bind_ok by apply setdefault_run.
Qed.

(** The handler after its first two steps: the query is answered and the
    chat has an entry. *)
Lemma button_level_run chat_id l u log :
  button chat_id (Some ("level_" +:+ l)) {| USERS := u; calls := log |} =
  (Ok tt,
   {| USERS := <[chat_id := <["difficulty" := l]> (default ∅ (u !! chat_id))]> u;
      calls := log ++
        [Answer;
         Edit ("Step 2 of 3 — level set to <b>" +:+ l +:+ "</b>." +:+
               Str.nl +:+ "Now pick a <b>certificate type</b>:")
              true (Some render_cert_menu)] |}).
Proof.
  unfold button.
  erewrite bind_ok by apply emit_run.
  erewrite bind_ok by apply setdefault_run.
  rewrite (prefix_of_append "level_" l).
  unfold split_underscore_1.
  change (Str.split_underscore ("level_" +:+ l)) with (Some ("level", l)).
  erewrite bind_ok by reflexivity.
  erewrite bind_ok by apply setitem_present.
  unfold edit_message_text. rewrite emit_run.
  by rewrite <- app_assoc.
Qed.

Lemma button_cert_run chat_id c u log :
  button chat_id (Some ("cert_" +:+ c)) {| USERS := u; calls := log |} =
  (Ok tt,
   {| USERS :=
        <[chat_id := <["certificate_type" := c]> (default ∅ (u !! chat_id))]> u;
      calls := log ++
        [Answer;
         Edit ("Step 3 of 3 — review your choices:" +:+ Str.nl +:+ Str.nl +:+
               "<b>Difficulty:</b> " +:+
               default "N/A" (default ∅ (u !! chat_id) !! "difficulty") +:+
               Str.nl +:+
               "<b>Certificate:</b> " +:+ c +:+ Str.nl +:+ Str.nl +:+
               "You can go back and change anything, or press <b>Save & Close</b>.")
              true (Some render_confirm_menu)] |}).
Proof.
  unfold button.
  erewrite bind_ok by apply emit_run.
  erewrite bind_ok by apply setdefault_run.
  change (String.prefix "level_" ("cert_" +:+ c)) with false.
  rewrite (prefix_of_append "cert_" c).
  unfold split_underscore_1.
  change (Str.split_underscore ("cert_" +:+ c)) with (Some ("cert", c)).
  erewrite bind_ok by reflexivity.
  erewrite bind_ok by apply setitem_present.
  erewrite bind_ok by apply pref_or_na_present.
  rewrite lookup_insert_ne by done.
  unfold edit_message_text. rewrite emit_run.
  by rewrite <- app_assoc.
Qed.

Lemma button_confirm_run chat_id u log :
  button chat_id (Some "confirm_save") {| USERS := u; calls := log |} =
  (Ok tt,
   {| USERS := <[chat_id := default ∅ (u !! chat_id)]> u;
      calls := log ++
        [Answer;
         Edit ("✅ <b>Preferences saved!</b>" +:+ Str.nl +:+ Str.nl +:+
               "<b>Difficulty:</b> " +:+
               default "N/A" (default ∅ (u !! chat_id) !! "difficulty") +:+
               Str.nl +:+
               "<b>Certificate:</b> " +:+
               default "N/A" (default ∅ (u !! chat_id) !! "certificate_type") +:+
               Str.nl +:+ Str.nl +:+
               "Now type a topic (e.g., 'data science') or use /top 🔥")
              true None] |}).
Proof.
  unfold button.
  erewrite bind_ok by apply emit_run.
  erewrite bind_ok by apply setdefault_run.
  change (String.prefix "level_" "confirm_save") with false.
  change (String.prefix "cert_" "confirm_save") with false.
  change ("confirm_save" =? "confirm_save")%string with true.
  cbv iota.
  erewrite bind_ok by apply pref_or_na_present.
  erewrite bind_ok by apply pref_or_na_present.
  unfold edit_message_text. rewrite emit_run.
  by rewrite <- app_assoc.
Qed.

(** The three callbacks that only navigate. *)
Lemma button_back_run chat_id d u log :
  d ∈ ["back_to_cert"; "back_to_level"; "back_home"] →
  ∃ text html markup,
    button chat_id (Some d) {| USERS := u; calls := log |} =
    (Ok tt,
     {| USERS := <[chat_id := default ∅ (u !! chat_id)]> u;
        calls := log ++ [Answer; Edit text html markup] |}).
Proof.
  rewrite !elem_of_cons, elem_of_nil. intros [->|[->|[->|[]]]];
    do 3 eexists; unfold button;
    (erewrite bind_ok by apply emit_run);
    (erewrite bind_ok by apply setdefault_run);
    unfold edit_message_text; simpl; rewrite emit_run;
    by rewrite <- app_assoc.
Qed.

Lemma button_unrecognised_run chat_id d u log :
  recognised d = false →
  button chat_id (Some d) {| USERS := u; calls := log |} =
  (Ok tt,
   {| USERS := <[chat_id := default ∅ (u !! chat_id)]> u;
      calls := log ++ [Answer] |}).
Proof.
  unfold recognised. rewrite !orb_false_iff.
  intros [[[[[H1 H2] H3] H4] H5] H6].
  unfold button.
  erewrite bind_ok by apply emit_run.
  erewrite bind_ok by apply setdefault_run.
  by rewrite H1, H2, H3, H4, H5, H6.
Qed.

(** Every callback falls in one of the cases above. *)
Lemma callback_cases d :
  (∃ l, d = "level_" +:+ l) ∨ (∃ c, d = "cert_" +:+ c) ∨
  d = "confirm_save" ∨
  d ∈ ["back_to_cert"; "back_to_level"; "back_home"] ∨
  recognised d = false.
Proof.
  unfold recognised.
  destruct (String.prefix "level_" d) eqn:H1;
    [left; by apply StrFacts.prefix_spec|].
  destruct (String.prefix "cert_" d) eqn:H2;
    [right; left; by apply StrFacts.prefix_spec|].
  destruct (String.eqb_spec d "confirm_save"); [by auto|].
  destruct (String.eqb_spec d "back_to_cert") as [->|];
    [right; right; right; left; set_solver|].
  destruct (String.eqb_spec d "back_to_level") as [->|];
    [right; right; right; left; set_solver|].
  destruct (String.eqb_spec d "back_home") as [->|];
    [right; right; right; left; set_solver|].
  by repeat right.
Qed.

End MoreRuns.

(** ** What the handlers show, and what they leave alone *)

Lemma filtered_satisfy {R : Str.Runtime} courses p c :
  c ∈ _apply_user_filters courses p → satisfies p c.
Proof.
  unfold _apply_user_filters.
  rewrite list_elem_of_In, List.filter_In, ok_satisfies. by intros [_ ?].
Qed.

Lemma elem_of_take_filtered {R : Str.Runtime} n courses p c :
  c ∈ take n (_apply_user_filters courses p) → satisfies p c.
Proof.
  intros Hc. apply (filtered_satisfy courses).
  eapply elem_of_sublist; [done | apply sublist_take].
Qed.

(** X7. When the text is not empty after stripping and at least one
    record of the pool matches the saved preferences, the text handler
    shows matching courses only. *)
Theorem on_message_shows_matching {R : Str.Runtime}
    (recommend : string → Z → list Course)
    (chat_id : Z) (text : option string) (w : world) :
  Str.strip (or_empty text) ≠ "" →
  _apply_user_filters (recommend (Str.strip (or_empty text)) 25)
                      (prefs_of w chat_id) ≠ [] →
  ∃ shown : list Course,
    on_message recommend chat_id text w =
      (Ok tt,
       {| USERS := USERS w;
          calls := calls w ++
                   Recommend (Str.strip (or_empty text)) 25 ::
                   Reply "Here are your recommendations:" false None ::
                   map card shown |}) ∧
    shown ≠ [] ∧
    ∀ c, c ∈ shown → satisfies (prefs_of w chat_id) c.
Proof.
  intros Hb Hne. eexists. split; [by apply on_message_run|].
  destruct (_apply_user_filters _ _) as [|c cs] eqn:E; [done|].
  split; [done|]. intros c' Hc'. rewrite <- E in Hc'.
  by eapply elem_of_take_filtered.
Qed.

(** X8. When at least one trending record matches the saved preferences,
    [/top] shows matching courses only. *)
Theorem top_shows_matching {R : Str.Runtime}
    (trending : Z → list Course) (chat_id : Z) (w : world) :
  _apply_user_filters (trending 10) (prefs_of w chat_id) ≠ [] →
  ∃ shown : list Course,
    top trending chat_id w =
      (Ok tt,
       {| USERS := USERS w;
          calls := calls w ++
                   Trending 10 ::
                   Reply "🔥 Trending courses:" false None ::
                   map card shown |}) ∧
    shown ≠ [] ∧
    ∀ c, c ∈ shown → satisfies (prefs_of w chat_id) c.
Proof.
  intros Hne. eexists. split; [by apply top_run|].
  destruct (_apply_user_filters _ _) as [|c cs] eqn:E; [done|].
  split; [done|]. intros c' Hc'. unfold list_or in Hc'.
  rewrite <- E in Hc'. by eapply elem_of_take_filtered.
Qed.

(** X9. When the engine returns nothing, the user gets the header line
    and no card: neither handler sends a message of its own for an empty
    result. *)
Theorem empty_result_sends_header_only {R : Str.Runtime}
    (recommend : string → Z → list Course)
    (trending : Z → list Course) (chat_id : Z) (text : option string)
    (w : world) :
  Str.strip (or_empty text) ≠ "" →
  recommend (Str.strip (or_empty text)) 25 = [] →
  trending 10 = [] →
  on_message recommend chat_id text w =
    (Ok tt,
     {| USERS := USERS w;
        calls := calls w ++
                 [Recommend (Str.strip (or_empty text)) 25;
                  Reply "Here are your recommendations:" false None] |}) ∧
  top trending chat_id w =
    (Ok tt,
     {| USERS := USERS w;
        calls := calls w ++
                 [Trending 10; Reply "🔥 Trending courses:" false None] |}).
Proof.
  intros Hb Hr Ht. split.
  - rewrite on_message_run by done. by rewrite Hr.
  - rewrite top_run. by rewrite Ht.
Qed.

(** X10. [/start], [/help], [/top], the text handler and the error handler
    never write the preference store, whatever they are given and
    whatever the reply of the error handler does. *)
Theorem reading_handlers_leave_store {R : Str.Runtime}
    (recommend : string → Z → list Course)
    (trending : Z → list Course) (chat_id : Z) (text : option string)
    (update : pyobject) (error : exc) (outcome : option exc) (w : world) :
  USERS (start w).2 = USERS w ∧
  USERS (help_cmd w).2 = USERS w ∧
  USERS (top trending chat_id w).2 = USERS w ∧
  USERS (on_message recommend chat_id text w).2 = USERS w ∧
  USERS (error_handler update error outcome w).2 = USERS w.
Proof.
  split; [|split; [|split; [|split]]].
  - reflexivity.
  - reflexivity.
  - by rewrite top_run.
  - destruct (decide (Str.strip (or_empty text) = "")) as [Hb|Hb].
    + by rewrite on_message_blank.
    + by rewrite on_message_run.
  - by rewrite error_handler_run.
Qed.

(** ** [/setprefs] and the buttons *)

Lemma prefs_of_insert_self chat_id (p : prefs) u log log' k :
  p = default ∅ (u !! chat_id) →
  prefs_of {| USERS := <[chat_id := p]> u; calls := log |} k =
  prefs_of {| USERS := u; calls := log' |} k.
Proof.
  intros ->. unfold prefs_of. simpl.
  destruct (decide (chat_id = k)) as [->|Hne].
  - by rewrite lookup_insert_eq.
  - by rewrite lookup_insert_ne.
Qed.

(** X11. [/setprefs] never resets a chat: every saved preference of
    every chat is kept, the chat has an entry afterwards, one message with
    the level menu is sent, and running it again leaves the store as it
    is. *)
Theorem setprefs_keeps_preferences (chat_id : Z) (w : world) :
  let w' := (setprefs chat_id w).2 in
  (setprefs chat_id w).1 = Ok tt ∧
  (∀ k, prefs_of w' k = prefs_of w k) ∧
  is_Some (USERS w' !! chat_id) ∧
  (∃ text, calls w' =
           calls w ++ [Reply text true (Some (render_level_menu ""))]) ∧
  USERS (setprefs chat_id w').2 = USERS w'.
Proof.
  destruct w as [u log]. rewrite setprefs_run. simpl.
  split; [done|]. split; [|split; [|split]].
  - intros k. by apply prefs_of_insert_self.
  - rewrite lookup_insert_eq. by eexists.
  - by eexists.
  - rewrite setprefs_run. simpl.
    by rewrite lookup_insert_eq, insert_insert_eq.
Qed.

(** X12. With callback data the button handler never raises: the
    underscore that [split] looks for is there whenever the prefix test
    succeeded, and the chat's entry is there whenever it is indexed.
    Without data it raises [AttributeError], after the query was answered
    and before any preference is written. *)
Theorem button_never_raises (chat_id : Z) (d : string) (w : world) :
  (button chat_id (Some d) w).1 = Ok tt ∧
  (button chat_id None w).1 = Raise (OtherException "AttributeError") ∧
  calls (button chat_id None w).2 = calls w ++ [Answer] ∧
  ∀ k, prefs_of (button chat_id None w).2 k = prefs_of w k.
Proof.
  destruct w as [u log]. split; [|split; [|split]].
  - destruct (callback_cases d) as [[l ->]|[[c ->]|[->|[Hd|Hd]]]].
    + by rewrite button_level_run.
    + by rewrite button_cert_run.
    + by rewrite button_confirm_run.
    + by destruct (button_back_run chat_id d u log Hd) as (?&?&?&->).
    + by rewrite button_unrecognised_run.
  - unfold button.
    erewrite bind_ok by apply emit_run.
    by erewrite bind_ok by apply setdefault_run.
  - unfold button.
    erewrite bind_ok by apply emit_run.
    by erewrite bind_ok by apply setdefault_run.
  - intros k. unfold button.
    erewrite bind_ok by apply emit_run.
    erewrite bind_ok by apply setdefault_run.
    unfold raise. simpl. by apply prefs_of_insert_self.
Qed.

(** X13. A level choice is stored as given and read back by the handlers:
    whatever follows the first underscore of the callback data, further
    underscores included, becomes the chat's difficulty preference, the
    other fields of the chat are kept, and the message is edited to the
    certificate menu. *)
Theorem button_level_round_trip (chat_id : Z) (l : string) (w : world) :
  let w' := (button chat_id (Some ("level_" +:+ l)) w).2 in
  prefs_of w' chat_id = <["difficulty" := l]> (prefs_of w chat_id) ∧
  users_get chat_id w' = (Ok (<["difficulty" := l]> (prefs_of w chat_id)), w') ∧
  calls w' =
    calls w ++
    [Answer;
     Edit ("Step 2 of 3 — level set to <b>" +:+ l +:+ "</b>." +:+
           Str.nl +:+ "Now pick a <b>certificate type</b>:")
          true (Some render_cert_menu)].
Proof.
  destruct w as [u log]. rewrite button_level_run.
  unfold users_get, prefs_of. simpl.
  by rewrite lookup_insert_eq.
Qed.

(** X14. A certificate choice is stored as given, keeps the stored
    difficulty, and the review it shows quotes the difficulty that is
    stored, or ["N/A"] when none is. *)
Theorem button_cert_round_trip (chat_id : Z) (c : string) (w : world) :
  let w' := (button chat_id (Some ("cert_" +:+ c)) w).2 in
  prefs_of w' chat_id = <["certificate_type" := c]> (prefs_of w chat_id) ∧
  prefs_of w' chat_id !! "difficulty" = prefs_of w chat_id !! "difficulty" ∧
  calls w' =
    calls w ++
    [Answer;
     Edit ("Step 3 of 3 — review your choices:" +:+ Str.nl +:+ Str.nl +:+
           "<b>Difficulty:</b> " +:+
           default "N/A" (prefs_of w chat_id !! "difficulty") +:+ Str.nl +:+
           "<b>Certificate:</b> " +:+ c +:+ Str.nl +:+ Str.nl +:+
           "You can go back and change anything, or press <b>Save & Close</b>.")
          true (Some render_confirm_menu)].
Proof.
  destruct w as [u log]. rewrite button_cert_run.
  unfold prefs_of. simpl.
  rewrite lookup_insert_eq. simpl.
  by rewrite lookup_insert_ne.
Qed.

Lemma menu_data_recognised d :
  d ∈ callback_data (render_level_menu "") ++
      callback_data render_cert_menu ++
      callback_data render_confirm_menu →
  recognised d = true.
Proof.
  unfold callback_data. simpl.
  rewrite !elem_of_cons, elem_of_nil.
  intros H. repeat (destruct H as [->|H]; [reflexivity|]). done.
Qed.

Lemma button_recognised_run chat_id d u log :
  recognised d = true →
  ∃ store text html markup,
    button chat_id (Some d) {| USERS := u; calls := log |} =
    (Ok tt,
     {| USERS := store; calls := log ++ [Answer; Edit text html markup] |}).
Proof.
  intros Hr.
  destruct (callback_cases d) as [[l ->]|[[c ->]|[->|[Hd|Hd]]]].
  - do 4 eexists. apply button_level_run.
  - do 4 eexists. apply button_cert_run.
  - do 4 eexists. apply button_confirm_run.
  - destruct (button_back_run chat_id d u log Hd) as (t&h&m&->).
    by do 4 eexists.
  - congruence.
Qed.

(** X15. Every button of the three menus is one the handler has a branch
    for: pressing it answers the query and edits the message exactly
    once. *)
Theorem menu_buttons_are_handled (chat_id : Z) (d : string) (w : world) :
  d ∈ callback_data (render_level_menu "") ++
      callback_data render_cert_menu ++
      callback_data render_confirm_menu →
  ∃ text html markup,
    (button chat_id (Some d) w).1 = Ok tt ∧
    calls (button chat_id (Some d) w).2 =
      calls w ++ [Answer; Edit text html markup].
Proof.
  intros Hd%menu_data_recognised. destruct w as [u log].
  destruct (button_recognised_run chat_id d u log Hd) as (s&t&h&m&->).
  by exists t, h, m.
Qed.

Lemma menu_buttons_are_handled_witness :
  ∃ text html markup,
    (button 7 (Some "cert_PROFESSIONAL") init).1 = Ok tt ∧
    calls (button 7 (Some "cert_PROFESSIONAL") init).2 =
      calls init ++ [Answer; Edit text html markup].
Proof.
  apply (menu_buttons_are_handled 7 "cert_PROFESSIONAL" init).
  unfold callback_data. simpl. set_solver.
Defined.

(** X16. Callback data the handler has no branch for is answered and
    otherwise ignored: no message is edited and no preference of any chat
    changes. *)
Theorem button_ignores_unknown_data (chat_id : Z) (d : string) (w : world) :
  recognised d = false →
  let w' := (button chat_id (Some d) w).2 in
  (button chat_id (Some d) w).1 = Ok tt ∧
  calls w' = calls w ++ [Answer] ∧
  ∀ k, prefs_of w' k = prefs_of w k.
Proof.
  intros Hd. destruct w as [u log].
  rewrite button_unrecognised_run by done. simpl.
  repeat split. intros k. by apply prefs_of_insert_self.
Qed.

Lemma button_ignores_unknown_data_witness :
  let w' := (button 7 (Some "Level_Beginner") beginner_world).2 in
  (button 7 (Some "Level_Beginner") beginner_world).1 = Ok tt ∧
  calls w' = calls beginner_world ++ [Answer] ∧
  ∀ k, prefs_of w' k = prefs_of beginner_world k.
Proof.
  apply (button_ignores_unknown_data 7 "Level_Beginner" beginner_world).
  reflexivity.
Defined.

(** X17. The three steps of the preference dialogue compose: after a
    level choice, a certificate choice and the confirmation, the chat's
    preferences are the earlier ones with the two chosen values written,
    and the confirmation quotes exactly the two values chosen. *)
Theorem preference_dialogue (chat_id : Z) (l c : string) (w : world) :
  let w1 := (button chat_id (Some ("level_" +:+ l)) w).2 in
  let w2 := (button chat_id (Some ("cert_" +:+ c)) w1).2 in
  let w3 := (button chat_id (Some "confirm_save") w2).2 in
  prefs_of w3 chat_id =
    <["certificate_type" := c]> (<["difficulty" := l]> (prefs_of w chat_id)) ∧
  (∀ k, k ≠ chat_id → prefs_of w3 k = prefs_of w k) ∧
  ∃ log,
    calls w3 =
    log ++
    [Answer;
     Edit ("✅ <b>Preferences saved!</b>" +:+ Str.nl +:+ Str.nl +:+
           "<b>Difficulty:</b> " +:+ l +:+ Str.nl +:+
           "<b>Certificate:</b> " +:+ c +:+ Str.nl +:+ Str.nl +:+
           "Now type a topic (e.g., 'data science') or use /top 🔥")
          true None].
Proof.
  destruct w as [u log].
  rewrite button_level_run. simpl.
  rewrite button_cert_run. simpl.
  rewrite button_confirm_run. simpl.
  rewrite !lookup_insert_eq. simpl.
  rewrite !insert_insert_eq.
  rewrite lookup_insert_eq, lookup_insert_ne, lookup_insert_eq by done.
  simpl. unfold prefs_of. simpl. split; [|split].
  - by rewrite lookup_insert_eq.
  - intros k Hk. by rewrite lookup_insert_ne.
  - rewrite lookup_insert_eq. by eexists.
Qed.

(** ** The query, the data path, and how the handlers compose *)

Section Strip.
Import Str.

Lemma ascii_rstrip_idem s : ascii_rstrip (ascii_rstrip s) = ascii_rstrip s.
Proof.
  induction s as [|a s IH]; simpl; [done|].
  destruct (ascii_isspace a && negb (truthy (ascii_rstrip s))) eqn:E; simpl; [done|].
  by rewrite IH, E.
Qed.

Lemma ascii_lstrip_head s :
  ascii_lstrip s = "" ∨ ∃ a t, ascii_lstrip s = String a t ∧ ascii_isspace a = false.
Proof.
  induction s as [|a s IH]; simpl; [by left|].
  destruct (ascii_isspace a) eqn:E; [done|]. right. by exists a, s.
Qed.

(** On ASCII text, stripping twice is stripping once. *)
Lemma ascii_strip_idem s : ascii_strip (ascii_strip s) = ascii_strip s.
Proof.
  unfold ascii_strip. destruct (ascii_lstrip_head s) as [->|(a & t & -> & Ha)]; [done|].
  simpl. rewrite Ha. simpl. rewrite Ha. simpl. rewrite Ha. simpl.
  by rewrite ascii_rstrip_idem.
Qed.

End Strip.

(** X18. The engine is never asked with an empty query: every request
    the text handler adds to the log carries the stripped text of the
    message, which is not empty, and asks for 25 records. *)
Theorem recommend_gets_stripped_query {R : Str.Runtime}
    (recommend : string → Z → list Course)
    (chat_id : Z) (text : option string) (w : world) (q : string) (k : Z) :
  Recommend q k ∈ calls (on_message recommend chat_id text w).2 →
  Recommend q k ∈ calls w ∨
  (q = Str.strip (or_empty text) ∧ q ≠ "" ∧ k = 25).
Proof.
  destruct (decide (Str.strip (or_empty text) = "")) as [Hb|Hb].
  - rewrite on_message_blank by done. by left.
  - rewrite on_message_run by done. simpl.
    rewrite elem_of_app, !elem_of_cons, list_elem_of_fmap.
    intros [?|[[= -> ->]|[?|(c & ? & _)]]]; [by left | | done | done].
    by right.
Qed.

Lemma replace_backslash_clean s : no_backslash (replace_backslash s) = true.
Proof.
  induction s as [|a s IH]; simpl; [done|]. rewrite IH.
  by destruct (Ascii.eqb a "\"%char) eqn:E; [|rewrite E].
Qed.

Lemma replace_backslash_id s :
  no_backslash s = true → replace_backslash s = s.
Proof.
  induction s as [|a s IH]; simpl; [done|].
  intros [Ha Hs]%andb_true_iff. rewrite IH by done.
  by destruct (Ascii.eqb a "\"%char).
Qed.

(** X19. [DATA_PATH] never holds a backslash; a value of the environment
    variable that has none is taken as it is, the empty value included
    (the default path is used only when the variable is unset); and
    normalising twice changes nothing. *)
Theorem DATA_PATH_has_no_backslash (env : option string) :
  no_backslash (DATA_PATH env) = true ∧
  (∀ v, no_backslash v = true → DATA_PATH (Some v) = v) ∧
  DATA_PATH (Some "") = "" ∧
  DATA_PATH (Some (DATA_PATH env)) = DATA_PATH env ∧
  String.length (DATA_PATH env) =
    String.length (getenv env (DATA_PATH None)).
Proof.
  split; [apply replace_backslash_clean|].
  split; [intros v Hv; by apply replace_backslash_id|].
  split; [done|].
  split; [apply replace_backslash_id, replace_backslash_clean|].
  assert (∀ s, String.length (replace_backslash s) = String.length s) as Hlen
    by (induction s as [|a s IH]; simpl; [done | by rewrite IH]).
  destruct env as [v|]; [apply Hlen | reflexivity].
Qed.

Example DATA_PATH_windows :
  DATA_PATH (Some "C:\data\courses.csv") = "C:/data/courses.csv".
Proof. reflexivity. Qed.

(** X20. What one chat chooses never shows in another chat: after any
    callback of chat [chat_id], the preferences of every other chat are
    as before, and [/top] and the text handler send that other chat
    exactly the calls they would have sent before. *)
Theorem other_chats_see_no_change {R : Str.Runtime}
    (recommend : string → Z → list Course)
    (trending : Z → list Course) (chat_id other : Z) (data : option string)
    (text : option string) (w : world) :
  other ≠ chat_id →
  let w1 := (button chat_id data w).2 in
  prefs_of w1 other = prefs_of w other ∧
  (∃ sent,
     calls (top trending other w1).2 = calls w1 ++ sent ∧
     calls (top trending other w).2 = calls w ++ sent) ∧
  (∃ sent,
     calls (on_message recommend other text w1).2 = calls w1 ++ sent ∧
     calls (on_message recommend other text w).2 = calls w ++ sent).
Proof.
  intros Hne w1.
  assert (prefs_of w1 other = prefs_of w other) as Hp.
  { destruct (button_keeps chat_id data w) as [Ho _].
    unfold prefs_of, w1. by rewrite Ho. }
  split; [done|]. split.
  - eexists. rewrite !top_run. simpl. by rewrite Hp.
  - destruct (decide (Str.strip (or_empty text) = "")) as [Hb|Hb].
    + exists []. rewrite !on_message_blank by done. by rewrite !app_nil_r.
    + eexists. rewrite !on_message_run by done. simpl. by rewrite Hp.
Qed.

(** X21. A level chosen with a button is the level [/top] filters by: when
    the choice is not empty and at least one trending record matches,
    every course [/top] then shows has the chosen level, lowercased,
    inside its lowercased difficulty. *)
Theorem chosen_level_filters_top {R : Str.Runtime}
    (trending : Z → list Course) (chat_id : Z) (l : string) (w : world) :
  let w1 := (button chat_id (Some ("level_" +:+ l)) w).2 in
  l ≠ "" →
  _apply_user_filters (trending 10) (prefs_of w1 chat_id) ≠ [] →
  ∃ shown : list Course,
    top trending chat_id w1 =
      (Ok tt,
       {| USERS := USERS w1;
          calls := calls w1 ++
                   Trending 10 ::
                   Reply "🔥 Trending courses:" false None ::
                   map card shown |}) ∧
    ∀ c, c ∈ shown →
         Str.occurs (Str.lower l) (Str.lower (or_empty (difficulty c))).
Proof.
  intros w1 Hl Hne. eexists. split; [apply top_run|].
  assert (prefs_of w1 chat_id !! "difficulty" = Some l) as Hd.
  { unfold w1. destruct w as [u log]. rewrite button_level_run.
    unfold prefs_of. simpl. rewrite lookup_insert_eq. simpl.
    by rewrite lookup_insert_eq. }
  destruct (_apply_user_filters _ _) as [|c cs] eqn:E; [done|].
  intros c' Hc'. unfold list_or in Hc'. rewrite <- E in Hc'.
  apply elem_of_take_filtered in Hc' as [Hm _]. by apply (Hm l).
Qed.

(** X22. The only exception that leaves the error handler is one raised
    by its own reply that does not derive from [Exception]; by then the
    error has been logged and the reply attempted. *)
Theorem error_handler_raises_only_uncaught (update : pyobject) (error : exc)
    (outcome : option exc) (w : world) (e : exc) :
  (error_handler update error outcome w).1 = Raise e →
  update = AnUpdate true ∧ outcome = Some e ∧
  isinstance_Exception e = false ∧
  calls (error_handler update error outcome w).2 =
    calls w ++ [LogException error; Reply apology false None].
Proof.
  rewrite error_handler_run. simpl.
  destruct update as [|[|]]; try done.
  destruct outcome as [e'|]; [|done].
  destruct (isinstance_Exception e') eqn:E; [done|].
  by intros [= ->].
Qed.

Lemma error_handler_raises_only_uncaught_witness :
  AnUpdate true = AnUpdate true ∧
  Some (BaseOnly "KeyboardInterrupt") = Some (BaseOnly "KeyboardInterrupt") ∧
  isinstance_Exception (BaseOnly "KeyboardInterrupt") = false ∧
  calls (error_handler (AnUpdate true) ValueError
           (Some (BaseOnly "KeyboardInterrupt")) init).2 =
    calls init ++ [LogException ValueError; Reply apology false None].
Proof.
  apply (error_handler_raises_only_uncaught (AnUpdate true) ValueError
           (Some (BaseOnly "KeyboardInterrupt")) init
           (BaseOnly "KeyboardInterrupt")).
  reflexivity.
Defined.

(** X23. Choices overwrite and commute: a second level choice replaces
    the first, and choosing the level before the certificate or after it
    leaves the same preferences stored. *)
Theorem last_choice_wins (chat_id : Z) (l1 l2 c : string) (w : world) :
  let level l w := (button chat_id (Some ("level_" +:+ l)) w).2 in
  let cert c w := (button chat_id (Some ("cert_" +:+ c)) w).2 in
  USERS (level l2 (level l1 w)) = USERS (level l2 w) ∧
  USERS (cert c (level l1 w)) = USERS (level l1 (cert c w)).
Proof.
  destruct w as [u log]. simpl.
  rewrite !button_level_run, !button_cert_run. simpl.
  rewrite !button_level_run, !button_cert_run. simpl.
  rewrite !lookup_insert_eq, !insert_insert_eq. simpl. split.
  - by rewrite insert_insert_eq.
  - f_equal. by apply insert_insert_ne.
Qed.

(** * The claims at concrete inputs

    The counterexamples, witnesses and samples below evaluate the filter
    and the text handler on ASCII text, with the runtime of ASCII text. *)

#[global] Existing Instance Str.ascii.

(** C2, as stated, fails: a course whose difficulty is unset is dropped as
    soon as a difficulty preference is set, although no other preference
    is. *)
Lemma unset_difficulty_is_excluded :
  unset (difficulty untagged_course) ∧
  is_set wants_beginner "difficulty" ∧
  not_set wants_beginner "certificate_type" ∧
  untagged_course ∉ _apply_user_filters [untagged_course] wants_beginner.
Proof.
  repeat split.
  - by left.
  - exists "Beginner". split; [by vm_compute | done].
  - left. by vm_compute.
  - assert (_apply_user_filters [untagged_course] wants_beginner = []) as ->
      by (by vm_compute).
    apply not_elem_of_nil.
Qed.

Lemma unset_field_excluded_witness :
  untagged_course ∉ _apply_user_filters [untagged_course] wants_beginner.
Proof.
  apply (unset_field_excluded [untagged_course] wants_beginner untagged_course).
  left. split.
  - by left.
  - exists "Beginner". split; [by vm_compute | done].
Defined.

Lemma apply_user_filters_no_prefs_witness :
  _apply_user_filters [untagged_course; python_for_beginners]
                      {[ "difficulty" := "" ]} =
  [untagged_course; python_for_beginners].
Proof.
  apply (apply_user_filters_no_prefs
           [untagged_course; python_for_beginners] {[ "difficulty" := "" ]}).
  - right. by vm_compute.
  - left. by vm_compute.
Defined.

(** C3, as stated, fails: a message of one space is a text message, the
    engine has a record for every query, and yet the handler neither asks
    the engine nor shows a course. *)
Lemma blank_message_shows_nothing :
  ¬ on_message_renders (λ _ _, [python_for_beginners]) 0 (Some " ") init.
Proof.
  intros (shown & Hrun & _).
  rewrite on_message_blank in Hrun by reflexivity.
  unfold init in Hrun. simpl in Hrun. discriminate Hrun.
Qed.

Lemma on_message_shows_witness :
  Str.strip (or_empty (Some "python")) ≠ "" ∧
  on_message_renders (λ _ _, [python_for_beginners]) 0 (Some "python") init.
Proof.
  split; [by vm_compute|].
  apply (on_message_shows (λ _ _, [python_for_beginners]) 0 (Some "python") init).
  by vm_compute.
Defined.

Lemma on_message_blank_returns_witness :
  on_message (λ _ _, [python_for_beginners]) 0 (Some "   ") init = (Ok tt, init).
Proof.
  apply (on_message_blank_returns (λ _ _, [python_for_beginners]) 0 (Some "   ") init).
  reflexivity.
Defined.

(** [strip] and the substring test on sample inputs. *)
Example strip_sample : Str.strip "  data science " = "data science".
Proof. by vm_compute. Qed.
Example contains_sample :
  Str.contains (Str.lower "Begin") (Str.lower "BEGINNER") = true.
Proof. by vm_compute. Qed.
Example filter_sample :
  _apply_user_filters [untagged_course; python_for_beginners] wants_beginner =
  [python_for_beginners].
Proof. by vm_compute. Qed.

Lemma setting_a_preference_narrows_witness :
  _apply_user_filters [untagged_course; python_for_beginners]
                      (<["difficulty" := "Beginner"]> ∅)
    `sublist_of`
  _apply_user_filters [untagged_course; python_for_beginners] ∅.
Proof.
  apply (setting_a_preference_narrows
           [untagged_course; python_for_beginners] ∅ "difficulty" "Beginner").
  left. by vm_compute.
Defined.

Lemma on_message_shows_matching_witness :
  ∃ shown : list Course,
    on_message (λ _ _, two_courses) 7 (Some "python") beginner_world =
      (Ok tt,
       {| USERS := USERS beginner_world;
          calls := calls beginner_world ++
                   Recommend (Str.strip (or_empty (Some "python"))) 25 ::
                   Reply "Here are your recommendations:" false None ::
                   map card shown |}) ∧
    shown ≠ [] ∧
    ∀ c, c ∈ shown → satisfies (prefs_of beginner_world 7) c.
Proof.
  apply (on_message_shows_matching
           (λ _ _, two_courses) 7 (Some "python") beginner_world).
  - by vm_compute.
  - by vm_compute.
Defined.

Lemma top_shows_matching_witness :
  ∃ shown : list Course,
    top (λ _, two_courses) 7 beginner_world =
      (Ok tt,
       {| USERS := USERS beginner_world;
          calls := calls beginner_world ++
                   Trending 10 ::
                   Reply "🔥 Trending courses:" false None ::
                   map card shown |}) ∧
    shown ≠ [] ∧
    ∀ c, c ∈ shown → satisfies (prefs_of beginner_world 7) c.
Proof.
  apply (top_shows_matching (λ _, two_courses) 7 beginner_world).
  by vm_compute.
Defined.

Lemma empty_result_sends_header_only_witness :
  on_message (λ _ _, []) 7 (Some "cooking") init =
    (Ok tt,
     {| USERS := USERS init;
        calls := calls init ++
                 [Recommend (Str.strip (or_empty (Some "cooking"))) 25;
                  Reply "Here are your recommendations:" false None] |}) ∧
  top (λ _, []) 7 init =
    (Ok tt,
     {| USERS := USERS init;
        calls := calls init ++
                 [Trending 10; Reply "🔥 Trending courses:" false None] |}).
Proof.
  apply (empty_result_sends_header_only (λ _ _, []) (λ _, []) 7
           (Some "cooking") init); by vm_compute.
Defined.

Lemma recommend_gets_stripped_query_witness :
  Recommend "python" 25 ∈ calls init ∨
  ("python" = Str.strip (or_empty (Some "  python ")) ∧
   "python" ≠ "" ∧ 25 = 25).
Proof.
  apply (recommend_gets_stripped_query (λ _ _, two_courses) 7
           (Some "  python ") init "python" 25).
  vm_compute. set_solver.
Defined.

Lemma other_chats_see_no_change_witness :
  let w1 := (button 7 (Some "level_Advanced") beginner_world).2 in
  prefs_of w1 8 = prefs_of beginner_world 8 ∧
  (∃ sent,
     calls (top (λ _, two_courses) 8 w1).2 = calls w1 ++ sent ∧
     calls (top (λ _, two_courses) 8 beginner_world).2 =
       calls beginner_world ++ sent) ∧
  (∃ sent,
     calls (on_message (λ _ _, two_courses) 8 (Some "python") w1).2 =
       calls w1 ++ sent ∧
     calls (on_message (λ _ _, two_courses) 8 (Some "python") beginner_world).2 =
       calls beginner_world ++ sent).
Proof.
  apply (other_chats_see_no_change (λ _ _, two_courses) (λ _, two_courses)
           7 8 (Some "level_Advanced") (Some "python") beginner_world).
  done.
Defined.

Lemma chosen_level_filters_top_witness :
  let w1 := (button 7 (Some ("level_" +:+ "Beginner")) init).2 in
  ∃ shown : list Course,
    top (λ _, two_courses) 7 w1 =
      (Ok tt,
       {| USERS := USERS w1;
          calls := calls w1 ++
                   Trending 10 ::
                   Reply "🔥 Trending courses:" false None ::
                   map card shown |}) ∧
    ∀ c, c ∈ shown →
         Str.occurs (Str.lower "Beginner")
                    (Str.lower (or_empty (difficulty c))).
Proof.
  apply (chosen_level_filters_top (λ _, two_courses) 7 "Beginner" init).
  - done.
  - by vm_compute.
Defined.
